(** * smallweb-gitlog: the log formatter, the API handler and the CLI

    A shallow embedding of [src/mod.ts] (class [GitLog]) and of the earlier
    revision of the same class in [src/unnamed/part_000].

    JavaScript strings are sequences of UTF-16 code units; they are modelled
    as lists of code units, so that [slice], [split], [trim] and [join] work
    on the same positions as in the program. *)

From Stdlib Require Import String Ascii ZArith NArith Lia Bool List.
Import ListNotations.

Set Implicit Arguments.

(** ** JavaScript strings and the built-ins the program calls *)

Module JS.

Definition jsstring : Type := list N.

(** A literal: the code units of an ASCII text. *)
Definition lit (s : string) : jsstring :=
  map N_of_ascii (list_ascii_of_string s).
Arguments lit s%_string.

(** The one-unit string ["\n"] and its code unit. *)
Definition LF : N := 10%N.
Definition CR : N := 13%N.
Definition nl : jsstring := [LF].

(** Strict equality [===] of two strings. *)
Fixpoint eqb (s t : jsstring) : bool :=
  match s, t with
  | [], [] => true
  | c :: s', d :: t' => N.eqb c d && eqb s' t'
  | _, _ => false
  end.

(** [String.prototype.slice(start, end)]: negative indices count from the
    end, both are clamped to the length, an empty span gives [""]. *)
Definition slice (s : jsstring) (start fin : Z) : jsstring :=
  let len := Z.of_nat (length s) in
  let from := if (start <? 0)%Z then Z.max (len + start) 0 else Z.min start len in
  let to := if (fin <? 0)%Z then Z.max (len + fin) 0 else Z.min fin len in
  let span := Z.max (to - from) 0 in
  firstn (Z.to_nat span) (skipn (Z.to_nat from) s).

(** [String.prototype.split(sep)] for a separator of one code unit: the
    pieces between the separators, always at least one piece. *)
Fixpoint split (sep : N) (s : jsstring) : list jsstring :=
  match s with
  | [] => [[]]
  | c :: s' =>
      if N.eqb c sep then [] :: split sep s'
      else match split sep s' with
           | [] => [[c]]
           | p :: ps => (c :: p) :: ps
           end
  end.

(** [Array.prototype.join(sep)]. *)
Fixpoint join (sep : jsstring) (parts : list jsstring) : jsstring :=
  match parts with
  | [] => []
  | [p] => p
  | p :: rest => p ++ sep ++ join sep rest
  end.

(** White space and line terminators of ECMAScript, as [trim] strips
    them. *)
Definition isWhiteSpace (c : N) : bool :=
  existsb (N.eqb c)
    [9; 10; 11; 12; 13; 32; 160; 5760;
     8192; 8193; 8194; 8195; 8196; 8197; 8198; 8199; 8200; 8201; 8202;
     8232; 8233; 8239; 8287; 12288; 65279]%N.

Fixpoint trimStart (s : jsstring) : jsstring :=
  match s with
  | c :: s' => if isWhiteSpace c then trimStart s' else s
  | [] => []
  end.

Definition trimEnd (s : jsstring) : jsstring := rev (trimStart (rev s)).

(** [String.prototype.trim()]. *)
Definition trim (s : jsstring) : jsstring := trimEnd (trimStart s).

(** [Array.prototype.includes] on an array of strings. *)
Definition includes (xs : list jsstring) (x : jsstring) : bool :=
  existsb (eqb x) xs.

(** What a call yields: a value, or a thrown value.  The program tests a
    thrown value with [instanceof Error] and reads its [message]. *)
Inductive thrown : Type :=
| ErrorObject (message : jsstring)
| OtherValue.

Inductive outcome (A : Type) : Type :=
| Returns (a : A)
| Throws (e : thrown).
Arguments Throws {A} e.

End JS.

(** ** Effects: console output, thrown values and [process.exit] *)

Module Effects.
Import JS.

(** One argument of a [console.log] / [console.error] call. *)
Inductive logarg : Type :=
| Str (s : jsstring)
| Err (e : thrown).

(** What has been printed so far, oldest call first. *)
Record Console : Type := mkConsole {
  stdout : list (list logarg);
  stderr : list (list logarg)
}.

Definition silent : Console := mkConsole [] [].

(** How a computation ends: with a value, with a thrown value that was not
    caught, or with the process terminated by [process.exit(code)]. *)
Inductive Result (A : Type) : Type :=
| Value (a : A)
| Raise (e : thrown)
| Exit (code : Z).
Arguments Raise {A} e.
Arguments Exit {A} code.

Definition M (A : Type) : Type := Console -> Console * Result A.

Definition ret {A} (a : A) : M A := fun io => (io, Value a).

Definition bind {A B} (m : M A) (k : A -> M B) : M B :=
  fun io =>
    match m io with
    | (io', Value a) => k a io'
    | (io', Raise e) => (io', Raise e)
    | (io', Exit code) => (io', Exit code)
    end.

(** [try { body } catch (error) { handler }]: only a thrown value is caught;
    a terminated process stays terminated. *)
Definition try_catch {A} (body : M A) (handler : thrown -> M A) : M A :=
  fun io =>
    match body io with
    | (io', Raise e) => handler e io'
    | r => r
    end.

(** The result of an external call, taken into the computation. *)
Definition call {A} (o : outcome A) : M A :=
  fun io =>
    match o with
    | Returns a => (io, Value a)
    | Throws e => (io, Raise e)
    end.

Definition console_log (args : list logarg) : M unit :=
  fun io => (mkConsole (stdout io ++ [args]) (stderr io), Value tt).

Definition console_error (args : list logarg) : M unit :=
  fun io => (mkConsole (stdout io) (stderr io ++ [args]), Value tt).

Definition throw {A} (e : thrown) : M A :=
  fun io => (io, Raise e).

Definition process_exit {A} (code : Z) : M A :=
  fun io => (io, Exit code).

(** [if (cond) { body }] for a body run for its effects. *)
Definition when (cond : bool) (body : M unit) : M unit :=
  if cond then body else ret tt.

End Effects.

Declare Scope js_scope.
Delimit Scope js_scope with js.
Notation "x <- m ;; k" := (Effects.bind m (fun x => k))
  (at level 61, m at next level, right associativity) : js_scope.
Notation "m ;; k" := (Effects.bind m (fun _ => k))
  (at level 61, right associativity) : js_scope.

(** ** HTTP responses, as the handlers build them *)

Module Http.
Import JS.

(** The values of the one JSON object the program sends, and the object as
    its properties in order. *)
Inductive jvalue : Type :=
| JBool (b : bool)
| JNumber (z : Z)
| JString (s : jsstring).

Definition jobject : Type := list (jsstring * jvalue).

Inductive Body : Type :=
| Text (s : jsstring)
| Json (j : jobject).

Record Response : Type := mkResponse {
  status : Z;
  body : Body
}.

(** [c.text(s)], [c.text(s, status)] and [c.json(v, status)]. *)
Definition text (s : jsstring) : Response := mkResponse 200 (Text s).
Definition text_status (s : jsstring) (st : Z) : Response := mkResponse st (Text s).
Definition json_status (j : jobject) (st : Z) : Response := mkResponse st (Json j).

(** The request as a handler reads it: the [:repo] path parameter and the
    decoded query parameters in the order of the URL. *)
Record Context : Type := mkContext {
  param_repo : jsstring;
  query : list (jsstring * jsstring)
}.

(** [c.req.query(key)]: the value of the first parameter named [key], or
    [undefined] ([None]) when the URL has none. *)
Definition req_query (c : Context) (key : jsstring) : option jsstring :=
  option_map snd (find (fun kv => eqb (fst kv) key) (query c)).

(** [v !== undefined]. *)
Definition is_defined {A} (v : option A) : bool :=
  match v with Some _ => true | None => false end.

End Http.

(** ** src/mod.ts *)

Module Mod.
Import JS Effects Http.
Local Open Scope js_scope.

Record GitLogOptions : Type := mkOptions { root : jsstring }.

Record Author : Type := mkAuthor {
  name : jsstring;
  email : jsstring;
  timestamp : Z
}.

Record GitCommit : Type := mkCommit {
  author : Author;
  message : jsstring
}.

Record GitLogEntry : Type := mkEntry {
  commit : GitCommit;
  oid : jsstring
}.

(** The styles of the colour library that the program applies.  What a style
    does to its text is the library's business: every style is a function
    from strings to strings. *)
Record Colors : Type := mkColors {
  yellow : jsstring -> jsstring;
  white : jsstring -> jsstring;
  cyan : jsstring -> jsstring;
  green : jsstring -> jsstring;
  red : jsstring -> jsstring
}.

Section GitLog.

(** The imports of the module that the embedded methods use. *)
Variable colors : Colors.
(** [new Date(ms).toLocaleDateString('en-US', {weekday: 'short', ...})]: the
    host's rendering of a time value in milliseconds. *)
Variable toLocaleDateString : Z -> jsstring.
(** [path.join(a, b)]. *)
Variable path_join : jsstring -> jsstring -> jsstring.
(** [git.log({ dir, fs })]: the commits of the repository at [dir], newest
    first, or the value it throws. *)
Variable git_log : jsstring -> outcome (list GitLogEntry).

Variable opts : GitLogOptions.

(** The callback of [commits.map] in oneline mode. *)
Definition onelineEntry (e : GitLogEntry) : jsstring :=
  let shortSha := yellow colors (slice (oid e) 0 7) in
  let message := white colors (nth 0 (split LF (message (commit e))) []) in
  shortSha ++ lit " " ++ message.

(** The callback of [commits.map] in verbose mode. *)
Definition verboseEntry (e : GitLogEntry) : jsstring :=
  let date := (timestamp (author (commit e)) * 1000)%Z in
  let formattedDate := toLocaleDateString date in
  join nl
    [ yellow colors (lit "commit " ++ oid e);
      lit "Author: " ++ cyan colors (name (author (commit e)))
        ++ lit " <" ++ cyan colors (email (author (commit e))) ++ lit ">";
      lit "Date:   " ++ green colors formattedDate;
      lit "";
      lit "    " ++ white colors (trim (message (commit e)));
      lit "" ].

Definition formatGitLog (commits : list GitLogEntry) (oneline : bool) : jsstring :=
  if oneline then join nl (map onelineEntry commits)
  else join nl (map verboseEntry commits).

(** [error instanceof Error ? error.message : 'Unknown error']. *)
Definition errorMessage (error : thrown) : jsstring :=
  match error with
  | ErrorObject m => m
  | OtherValue => lit "Unknown error"
  end.

(** The handler of [GET /api/:repo]. *)
Definition apiRepo (c : Context) : M Response :=
  let dir := path_join (root opts) (param_repo c) in
  try_catch
    (commits <- call (git_log dir) ;;
     let oneline := is_defined (req_query c (lit "oneline")) in
     let formatted := formatGitLog commits oneline in
     ret (text formatted))
    (fun error =>
       ret (text_status (red colors (lit "Error: " ++ errorMessage error)) 404)).

(** [err.message || 'Internal Server Error']: the empty string is falsy. *)
Definition message_or (m fallback : jsstring) : jsstring :=
  match m with [] => fallback | _ => m end.

(** The handler registered with [.onError]. *)
Definition onError (err : jsstring) (c : Context) : M Response :=
  console_error [Str (lit "Error occurred:"); Err (ErrorObject err)] ;;
  ret (json_status
         [ (lit "success", JBool false);
           (lit "message", JString (message_or err (lit "Internal Server Error")));
           (lit "status", JNumber 500) ]
         500).

(** [this.server.fetch(req)] for a request that a route's handler takes:
    the framework hands an [Error] thrown by the handler to the registered
    error handler; any other thrown value stays thrown. *)
Definition fetch (handler : Context -> M Response) (c : Context) : M Response :=
  try_catch (handler c)
    (fun e =>
       match e with
       | ErrorObject m => onError m c
       | OtherValue => throw OtherValue
       end).

Definition usage : jsstring :=
  lit "No repository specified. Usage: mod.ts <repo-name> [--oneline]".

(** The command line entry point. [args[0]] is read only after the empty
    argument list has ended the process. *)
Definition run (args : list jsstring) : M unit :=
  when (Nat.eqb (length args) 0)
    (console_error [Str usage] ;; process_exit 1) ;;
  let repo := nth 0 args [] in
  let oneline := includes args (lit "--oneline") in
  try_catch
    (let dir := path_join (root opts) repo in
     commits <- call (git_log dir) ;;
     let formatted := formatGitLog commits oneline in
     console_log [Str formatted])
    (fun error =>
       console_error [Str (red colors (lit "Error: " ++ errorMessage error))] ;;
       process_exit 1).

End GitLog.

(** Colour switched off: every style returns its text. *)
Definition plain : Colors :=
  mkColors (fun s => s) (fun s => s) (fun s => s) (fun s => s) (fun s => s).

(** Colour switched on, as a terminal shows it: a style brackets its text
    with the SGR escape sequence of its colour and the one that restores
    the default foreground.  The colour library returns this for a text that
    is not empty and holds no line end and no escape character;
    [AnsiColors.libraryStyle] below is its style for every text. *)
Definition sgr (code : string) (s : jsstring) : jsstring :=
  (27%N :: lit "[" ++ lit code ++ lit "m") ++ s ++ (27%N :: lit "[39m").

Definition ansi : Colors :=
  mkColors (sgr "33") (sgr "37") (sgr "36") (sgr "32") (sgr "31").

End Mod.

(** ** src/unnamed/part_000: the earlier revision, without colour *)

Module Part000.
Import JS Effects Http.
Import Mod.
Local Open Scope js_scope.

Section GitLog.

(** [new Date(ms).toISOString()]: the text, or the [RangeError] it throws
    for a time value that is no date. *)
Variable toISOString : Z -> outcome jsstring.
Variable path_join : jsstring -> jsstring -> jsstring.
(** [git.log({ gitdir, fs })]. *)
Variable git_log : jsstring -> outcome (list GitLogEntry).

Variable opts : GitLogOptions.

Definition onelineEntry (e : GitLogEntry) : jsstring :=
  slice (oid e) 0 7 ++ lit " " ++ nth 0 (split LF (message (commit e))) [].

Definition verboseEntry (e : GitLogEntry) : M jsstring :=
  iso <- call (toISOString (timestamp (author (commit e)) * 1000)%Z) ;;
  ret (join nl
         [ lit "commit " ++ oid e;
           lit "Author: " ++ name (author (commit e))
             ++ lit " <" ++ email (author (commit e)) ++ lit ">";
           lit "Date:   " ++ iso;
           lit "";
           lit "    " ++ trim (message (commit e));
           lit "" ]).

(** [commits.map(f)] for a callback that may throw: the elements in order,
    up to the first that throws. *)
Fixpoint mapM {A B} (f : A -> M B) (xs : list A) : M (list B) :=
  match xs with
  | [] => ret []
  | x :: rest => y <- f x ;; ys <- mapM f rest ;; ret (y :: ys)
  end.

(** The handler of [GET /:repo]. *)
Definition getRepo (c : Context) : M Response :=
  let gitdir := path_join (root opts) (param_repo c) in
  commits <- call (git_log gitdir) ;;
  let oneline := is_defined (req_query c (lit "oneline")) in
  formatted <-
    (if oneline then ret (join nl (map onelineEntry commits))
     else blocks <- mapM verboseEntry commits ;; ret (join nl blocks)) ;;
  ret (text formatted).

End GitLog.

End Part000.

(** ** Vocabulary of the statements *)

Module Props.
Import JS Effects Http Mod.

(** [pat] is a prefix of [s]. *)
Fixpoint starts_with (pat s : jsstring) : bool :=
  match pat, s with
  | [], _ => true
  | p :: pat', c :: s' => N.eqb p c && starts_with pat' s'
  | _ :: _, [] => false
  end.

(** At how many positions of [s] the text [pat] starts. *)
Fixpoint occurrences (pat s : jsstring) : nat :=
  (if starts_with pat s then 1 else 0) +
  match s with
  | [] => 0
  | _ :: s' => occurrences pat s'
  end.

(** [pat] is a substring of [s]. *)
Definition substring_of (pat s : jsstring) : Prop :=
  exists before after, s = before ++ pat ++ after.

(** A style keeps its text readable: the text is part of the result. *)
Definition Wraps (style : jsstring -> jsstring) : Prop :=
  forall s, substring_of s (style s).

(** A style leaves its text unchanged. *)
Definition Unstyled (style : jsstring -> jsstring) : Prop :=
  forall s, style s = s.

(** The decoded query has a parameter named [key], whatever its value. *)
Definition hasParam (key : jsstring) (q : list (jsstring * jsstring)) : bool :=
  existsb (fun kv => eqb (fst kv) key) q.

Definition isLowerHex (c : N) : bool :=
  ((48 <=? c) && (c <=? 57) || (97 <=? c) && (c <=? 102))%N.

(** An object identifier: 40 lowercase hexadecimal digits. *)
Definition isObjectId (s : jsstring) : bool :=
  Nat.eqb (length s) 40 && forallb isLowerHex s.

(** The text of [s] before its first line feed. *)
Fixpoint upToNewline (s : jsstring) : jsstring :=
  match s with
  | [] => []
  | c :: s' => if N.eqb c LF then [] else c :: upToNewline s'
  end.

(** [s] without the carriage return it ends with, if it ends with one. *)
Definition withoutTrailingCR (s : jsstring) : jsstring :=
  match rev s with
  | c :: before => if N.eqb c CR then rev before else s
  | [] => s
  end.

(** The oneline output as the specification words it: per commit the first
    7 characters of the identifier, a space, and the first line of the
    message with a trailing carriage return removed; joined by newlines. *)
Definition specOneline (commits : list GitLogEntry) : jsstring :=
  join nl
    (map (fun e => firstn 7 (oid e) ++ lit " "
                     ++ withoutTrailingCR (upToNewline (message (commit e))))
       commits).



(** A date line for the closed examples: what a host in UTC prints for the
    time value 0.  No statement below depends on the text. *)
Definition epochDate (ms : Z) : jsstring :=
  lit "Thu, Jan 01, 1970, 12:00:00 AM UTC".

Definition ada : Author :=
  mkAuthor (lit "Ada") (lit "ada@example.org") 0.

Definition oidA : jsstring := lit "abc12340123456789abcdef0123456789abcdef0".
Definition oidB : jsstring := lit "9f8e7d6c5b4a39281706f5e4d3c2b1a098765432".

Definition initialCommit : GitLogEntry :=
  mkEntry (mkCommit ada (lit "Initial commit" ++ nl)) oidA.

(** A commit written on a system with CR LF line ends. *)
Definition crlfCommit : GitLogEntry :=
  mkEntry (mkCommit ada (lit "Fix typo" ++ [CR; LF] ++ lit "in the readme" ++ [CR; LF])) oidA.

(** A revert, whose message names the commit it undoes as [git revert]
    writes it. *)
Definition revertCommit : GitLogEntry :=
  mkEntry
    (mkCommit ada
       (lit "Revert Initial commit" ++ nl ++ nl
          ++ lit "This reverts commit " ++ oidA ++ lit "." ++ nl))
    oidB.

(** A host for the closed examples: paths joined with a slash, and one
    repository, [demo], under the root [/repos]. *)
Definition slashJoin (a b : jsstring) : jsstring := a ++ lit "/" ++ b.

Definition demoHost (dir : jsstring) : outcome (list GitLogEntry) :=
  if eqb dir (lit "/repos/demo") then Returns [revertCommit; initialCommit]
  else Throws (ErrorObject (lit "Could not find HEAD.")).

Definition demoOptions : GitLogOptions := mkOptions (lit "/repos").

End Props.

(** ** src/mod.ts: the HTML shell, [getTerminalHTML] and its two routes *)

Module Pages.
Import JS Effects Http Mod.

(** A literal of the page template.  The template has no tilde: in the
    literals below a tilde stands for the double quote of the source.  The
    escapes of the template literal are resolved (a doubled backslash is one
    backslash, an escaped backquote or dollar is the character). *)
Definition tpl (s : string) : jsstring :=
  map (fun c => if N.eqb c 126 then 34%N else c) (lit s).
Arguments tpl s%_string.

(** The template up to the title. *)
Definition pageHead : jsstring :=
  tpl "<!DOCTYPE html>
<html lang=~en~>
<head>
    <meta charset=~UTF-8~>
    <meta name=~viewport~ content=~width=device-width, initial-scale=1.0~>
    <title>".

(** The template between the title and the repository name in the script. *)
Definition pageMiddle : jsstring :=
  tpl "</title>
    <link rel=~stylesheet~ href=~https://cdn.jsdelivr.net/npm/xterm@5.3.0/css/xterm.css~ />
    <style>
        body {
            margin: 0;
            padding: 0;
            background-color: #000;
            font-family: ~SF Mono~, ~Monaco~, ~Inconsolata~, ~Fira Code~, ~Fira Mono~, ~Roboto Mono~, ~DejaVu Sans Mono~, ~Lucida Console~, monospace;
            height: 100vh;
            overflow: hidden;
        }
        #terminal {
            height: 100vh;
            width: 100vw;
            background: #000;
        }
    </style>
</head>
<body>
    <div id=~terminal~></div>

    <script src=~https://cdn.jsdelivr.net/npm/xterm@5.3.0/lib/xterm.js~></script>
    <script src=~https://cdn.jsdelivr.net/npm/xterm-addon-fit@0.8.0/lib/xterm-addon-fit.js~></script>

    <script>
        let terminal;
        let fitAddon;
        let currentRepo = '".

(** The rest of the template. *)
Definition pageTail : jsstring :=
  tpl "';

        function initTerminal() {
            terminal = new Terminal({
                theme: {
                    background: '#000000',
                    foreground: '#ffffff',
                    cursor: '#ffffff',
                    selection: '#444444'
                },
                fontSize: 13,
                fontFamily: '~SF Mono~, ~Monaco~, ~Inconsolata~, ~Fira Code~, ~Fira Mono~, ~Roboto Mono~, ~DejaVu Sans Mono~, ~Lucida Console~, monospace',
                cursorBlink: true,
                allowTransparency: false,
                convertEol: true,
                disableStdin: true,
                cursorStyle: 'block'
            });

            fitAddon = new FitAddon.FitAddon();
            terminal.loadAddon(fitAddon);

            terminal.open(document.getElementById('terminal'));
            fitAddon.fit();

            window.addEventListener('resize', () => {
                fitAddon.fit();
            });
        }

        async function loadRepo(repo) {
            if (!repo) {
                terminal.writeln('\x1b[31mError: No repository specified\x1b[0m');
                return;
            }

            terminal.clear();
            terminal.writeln('\x1b[36mLoading git log...\x1b[0m');

            try {
                // Check for oneline query parameter in current URL
                const urlParams = new URLSearchParams(window.location.search);
                const isOneline = urlParams.has('oneline');
                const url = `/api/${repo}${isOneline ? '?oneline' : ''}`;

                const response = await fetch(url);
                const text = await response.text();

                terminal.clear();
                if (response.ok) {
                    // Split the response into lines and write each line separately to preserve formatting
                    const lines = text.split('\n');
                    for (const line of lines) {
                        terminal.writeln(line);
                    }
                } else {
                    terminal.writeln(text);
                }
            } catch (error) {
                terminal.clear();
                terminal.writeln(`\x1b[31mError: ${error.message}\x1b[0m`);
            }
        }

        // Initialize terminal when page loads
        initTerminal();

        // Load repository if specified
        if (currentRepo) {
            loadRepo(currentRepo);
        } else {
            terminal.writeln('\x1b[33mWelcome to Git Log Viewer\x1b[0m');
            terminal.writeln('\x1b[37mVisit /<repo-name> to view a repository\'s git log\x1b[0m');
            terminal.writeln('\x1b[37mAdd ?oneline for compact format: /<repo-name>?oneline\x1b[0m');
        }
    </script>
</body>
</html>".

(** [repo ? a : b] and [repo || b] for the optional parameter: [undefined]
    and the empty string are falsy. *)
Definition truthy (repo : option jsstring) : bool :=
  match repo with
  | Some (_ :: _) => true
  | _ => false
  end.

(** The text a template shows for [repo] where it is truthy. *)
Definition shown (repo : option jsstring) : jsstring :=
  match repo with
  | Some r => r
  | None => lit "undefined"
  end.

Definition getTerminalHTML (repo : option jsstring) : jsstring :=
  let title := if truthy repo then lit "Git Log - " ++ shown repo else lit "Git Log" in
  pageHead ++ title ++ pageMiddle
    ++ (if truthy repo then shown repo else lit "") ++ pageTail.

(** [c.html(s)]. *)
Record HtmlResponse : Type := mkHtml {
  html_status : Z;
  html_body : jsstring
}.

Definition html (s : jsstring) : HtmlResponse := mkHtml 200 s.

(** The handler of [GET /]. *)
Definition getRoot (c : Context) : HtmlResponse :=
  html (getTerminalHTML None).

(** The handler of [GET /:repo]. *)
Definition getRepo (c : Context) : HtmlResponse :=
  let repo := param_repo c in
  html (getTerminalHTML (Some repo)).

End Pages.

(** ** src/mod.ts: the script of the page *)

Module Client.
Import JS Effects Http Mod.

(** What the script does that can be seen from outside, in order: a request,
    and the calls [terminal.clear()] and [terminal.writeln(s)]. *)
Inductive event : Type :=
| Fetch (url : jsstring)
| Clear
| Writeln (s : jsstring).

(** [await fetch(url)] followed by [await response.text()]: the answer with
    its [ok] flag and its text, or the message of the [Error] that either
    promise rejects with. *)
Inductive fetched : Type :=
| Answer (ok : bool) (text : jsstring)
| Rejected (message : jsstring).

(** [response.ok]: a status from 200 to 299. *)
Definition response_ok (st : Z) : bool := ((200 <=? st) && (st <=? 299))%Z.

Definition ESC : N := 27%N.

Section Page.

(** [new URLSearchParams(window.location.search).has('oneline')]. *)
Variable isOneline : bool.
Variable net : jsstring -> fetched.

Definition loadRepo (repo : jsstring) : list event :=
  match repo with
  | [] =>
      [Writeln ([ESC] ++ lit "[31mError: No repository specified" ++ [ESC] ++ lit "[0m")]
  | _ :: _ =>
      let url := lit "/api/" ++ repo ++ (if isOneline then lit "?oneline" else lit "") in
      [Clear; Writeln ([ESC] ++ lit "[36mLoading git log..." ++ [ESC] ++ lit "[0m");
       Fetch url]
      ++ match net url with
         | Answer ok text =>
             Clear ::
             (if ok then map Writeln (split LF text) else [Writeln text])
         | Rejected message =>
             [Clear;
              Writeln ([ESC] ++ lit "[31mError: " ++ message ++ [ESC] ++ lit "[0m")]
         end
  end.

(** The statements the script runs when the page loads, after the terminal
    is set up. *)
Definition start (currentRepo : jsstring) : list event :=
  match currentRepo with
  | _ :: _ => loadRepo currentRepo
  | [] =>
      [ Writeln ([ESC] ++ lit "[33mWelcome to Git Log Viewer" ++ [ESC] ++ lit "[0m");
        Writeln ([ESC] ++ lit "[37mVisit /<repo-name> to view a repository's git log"
                   ++ [ESC] ++ lit "[0m");
        Writeln ([ESC] ++ lit "[37mAdd ?oneline for compact format: /<repo-name>?oneline"
                   ++ [ESC] ++ lit "[0m") ]
  end.

End Page.

(** The requests of a run. *)
Fixpoint requests (trace : list event) : list jsstring :=
  match trace with
  | [] => []
  | Fetch url :: rest => url :: requests rest
  | _ :: rest => requests rest
  end.

(** The network hands the page what a handler of the server answered: its
    text, and [ok] by its status. *)
Definition delivers (net : jsstring -> fetched) (url : jsstring)
    (answer : Console * Result Response) : Prop :=
  forall io st b,
    answer = (io, Value (mkResponse st (Text b))) ->
    net url = Answer (response_ok st) b.

End Client.

(** A network for the closed examples: it answers for the repository [demo]
    of [demoHost] as the API does with colour off. *)
Module Demo.
Import JS Effects Http Mod Props Client.

Definition demoNet (url : jsstring) : fetched :=
  if eqb url (lit "/api/demo?oneline")
  then Answer true (formatGitLog plain epochDate [revertCommit; initialCommit] true)
  else if eqb url (lit "/api/demo")
  then Answer true (formatGitLog plain epochDate [revertCommit; initialCommit] false)
  else Answer false (lit "Error: Could not find HEAD.").

(** A commit dated past the last day a [Date] can hold, and a rendering
    of dates that knows the time value 0 and throws for the rest. *)
Definition farCommit : GitLogEntry :=
  mkEntry (mkCommit (mkAuthor (lit "Ada") (lit "ada@example.org") 9000000000000)
             (lit "From the far future" ++ nl))
    oidB.

Definition demoISO (ms : Z) : outcome jsstring :=
  if (ms =? 0)%Z then Returns (lit "1970-01-01T00:00:00.000Z")
  else Throws (ErrorObject (lit "Invalid time value")).

End Demo.

(** ** The colour library with colour on

    The styles are parameters of the program.  This is the value they have
    when the library colours: what its style function does to a text, to
    state what the program returns in that case. *)

Module AnsiColors.
Import JS Mod Props.

(** The escape sequence of a code: ESC, an opening bracket, the code, [m]. *)
Definition sequence (code : string) : jsstring :=
  27%N :: lit "[" ++ lit code ++ lit "m".

(** A closing sequence inside the text is followed by the opening one, so
    that the style goes on after it: every occurrence, from the left, none
    overlapping.  [skip] counts the units of a found occurrence that are
    still to be passed over. *)
Fixpoint reopen (opening closing : jsstring) (skip : nat) (s : jsstring) : jsstring :=
  match s with
  | [] => []
  | c :: s' =>
      match skip with
      | S k => reopen opening closing k s'
      | O =>
          if starts_with closing s
          then closing ++ opening ++ reopen opening closing (length closing - 1) s'
          else c :: reopen opening closing 0 s'
      end
  end.

(** The style is closed before every line end (a line feed with the
    carriage returns that stand right before it) and opened again after it.
    [pending] holds the carriage returns read since the last other unit. *)
Fixpoint breakLines (opening closing pending s : jsstring) : jsstring :=
  match s with
  | [] => pending
  | c :: s' =>
      if N.eqb c LF
      then closing ++ pending ++ [LF] ++ opening ++ breakLines opening closing [] s'
      else if N.eqb c CR
      then breakLines opening closing (pending ++ [CR]) s'
      else pending ++ c :: breakLines opening closing [] s'
  end.

(** The style function: the empty text stays empty; any other text is put
    between the opening and the closing sequence, with the style reopened
    after a closing sequence of its own and, when the text has a line feed,
    closed and reopened around every line end. *)
Definition libraryStyle (opening closing : jsstring) (s : jsstring) : jsstring :=
  match s with
  | [] => []
  | _ :: _ =>
      let output := opening ++ reopen opening closing 0 s ++ closing in
      if existsb (N.eqb LF) s then breakLines opening closing [] output
      else output
  end.

Definition libraryColors : Colors :=
  mkColors (libraryStyle (sequence "33") (sequence "39"))
    (libraryStyle (sequence "37") (sequence "39"))
    (libraryStyle (sequence "36") (sequence "39"))
    (libraryStyle (sequence "32") (sequence "39"))
    (libraryStyle (sequence "31") (sequence "39")).

(** A unit that no style touches: not a line feed, not a carriage return,
    not the escape character. *)
Definition isPlain (c : N) : bool :=
  negb (N.eqb c LF) && negb (N.eqb c CR) && negb (N.eqb c 27).

(** A style keeps the beginning of its text: a leading stretch of plain
    units stands unbroken in the result.  Colour off does, and so does the
    library with colour on. *)
Definition KeepsPlainStart (style : jsstring -> jsstring) : Prop :=
  forall p rest, forallb isPlain p = true -> substring_of p (style (p ++ rest)).

(** A commit source that fails with a message of two lines. *)
Definition twoLineFailure (dir : jsstring) : outcome (list GitLogEntry) :=
  Throws (ErrorObject (lit "ENOENT: no such file or directory" ++ nl
                         ++ lit "while opening the repository")).

End AnsiColors.

(** * Properties *)

Import JS Effects Http Mod Props.

(** ** The string built-ins *)

Section Builtins.

Lemma eqb_eq (s t : jsstring) : eqb s t = true <-> s = t.
Proof.
  revert t; induction s as [|c s IH]; intros [|d t]; simpl; split; intro H;
    try reflexivity; try discriminate.
  - apply andb_true_iff in H as [Hc Hs].
    apply N.eqb_eq in Hc. apply IH in Hs. now subst.
  - injection H as -> ->. rewrite N.eqb_refl. simpl. now apply IH.
Qed.

(** [s.slice(0, 7)] is the first 7 code units of [s], fewer when [s] is
    shorter. *)
Lemma slice_0_7 (s : jsstring) : slice s 0 7 = firstn 7 s.
Proof.
  unfold slice. change (0 <? 0)%Z with false. change (7 <? 0)%Z with false.
  cbv iota.
  rewrite (Z.min_l 0) by lia. simpl (Z.to_nat 0). simpl skipn.
  rewrite Z.sub_0_r.
  destruct (Z.le_gt_cases 7 (Z.of_nat (length s))) as [Hlong | Hshort].
  - rewrite Z.min_l by lia. now rewrite Z.max_l by lia.
  - rewrite Z.min_r by lia. rewrite Z.max_l by lia. rewrite Nat2Z.id.
    rewrite firstn_all. symmetry. apply firstn_all2. lia.
Qed.

Lemma split_not_empty (sep : N) (s : jsstring) : split sep s <> [].
Proof.
  destruct s as [|c s]; simpl; [discriminate|].
  destruct (N.eqb c sep); [discriminate|].
  destruct (split sep s); discriminate.
Qed.

(** [s.split("\n")[0]] is the text before the first line feed. *)
Lemma split_first (s : jsstring) : nth 0 (split LF s) [] = upToNewline s.
Proof.
  induction s as [|c s IH]; simpl; [reflexivity|].
  destruct (N.eqb c LF); [reflexivity|].
  destruct (split LF s) as [|p ps] eqn:E; simpl in *; now rewrite <- IH.
Qed.

Lemma upToNewline_no_LF (s : jsstring) : ~ In LF (upToNewline s).
Proof.
  induction s as [|c s IH]; simpl; [tauto|].
  destruct (N.eqb c LF) eqn:E; simpl; [tauto|].
  apply N.eqb_neq in E. intros [H | H]; [now apply E | now apply IH].
Qed.

Lemma split_no_sep (sep : N) (p : jsstring) :
  ~ In sep p -> split sep p = [p].
Proof.
  induction p as [|c p IH]; simpl; intro H; [reflexivity|].
  destruct (N.eqb c sep) eqn:E.
  - apply N.eqb_eq in E. exfalso. apply H. now left.
  - rewrite IH by tauto. reflexivity.
Qed.

Lemma split_piece (sep : N) (p rest : jsstring) :
  ~ In sep p -> split sep (p ++ sep :: rest) = p :: split sep rest.
Proof.
  induction p as [|c p IH]; simpl; intro H.
  - now rewrite N.eqb_refl.
  - destruct (N.eqb c sep) eqn:E.
    + apply N.eqb_eq in E. exfalso. apply H. now left.
    + rewrite IH by tauto. reflexivity.
Qed.

Lemma join_cons (sep p q : jsstring) (rest : list jsstring) :
  join sep (p :: q :: rest) = p ++ sep ++ join sep (q :: rest).
Proof. reflexivity. Qed.

Lemma join_cons_ne (sep p : jsstring) (rest : list jsstring) :
  rest <> [] -> join sep (p :: rest) = p ++ sep ++ join sep rest.
Proof. destruct rest; [congruence | reflexivity]. Qed.

(** Splitting what [join] glued gives the pieces back, when no piece holds
    the separator. *)
Lemma split_join (sep : N) (parts : list jsstring) :
  parts <> [] ->
  Forall (fun p => ~ In sep p) parts ->
  split sep (join [sep] parts) = parts.
Proof.
  induction parts as [|p [|q rest] IH]; intros Hne Hall.
  - congruence.
  - apply split_no_sep. now inversion Hall.
  - rewrite join_cons. simpl app. inversion Hall as [|? ? Hp Hrest]; subst.
    rewrite split_piece by assumption.
    f_equal. apply IH; [discriminate | assumption].
Qed.

Lemma join_app (sep : jsstring) (xs ys : list jsstring) :
  xs <> [] -> ys <> [] ->
  join sep (xs ++ ys) = join sep xs ++ sep ++ join sep ys.
Proof.
  induction xs as [|x [|x' xs] IH]; intros Hx Hy.
  - congruence.
  - destruct ys; [congruence | reflexivity].
  - change ((x :: x' :: xs) ++ ys) with (x :: x' :: (xs ++ ys)).
    rewrite !join_cons. change (x' :: xs ++ ys) with ((x' :: xs) ++ ys).
    rewrite IH by (discriminate || assumption).
    now rewrite <- !app_assoc.
Qed.

(** The joined text, piece by piece: every piece before a given one is
    followed by the separator, every piece after it is preceded by it. *)
Lemma join_middle (sep : jsstring) (before after : list jsstring) (p : jsstring) :
  join sep (before ++ p :: after)
  = concat (map (fun x => x ++ sep) before) ++ p
      ++ concat (map (fun x => sep ++ x) after).
Proof.
  induction before as [|b before IH].
  - cbn [app map concat]. revert p.
    induction after as [|a after IHa]; intro p.
    + simpl. now rewrite app_nil_r.
    + rewrite join_cons, IHa. cbn [app map concat].
      now rewrite <- !app_assoc.
  - change ((b :: before) ++ p :: after) with (b :: (before ++ p :: after)).
    rewrite join_cons_ne by (destruct before; discriminate).
    rewrite IH. cbn [app map concat]. now rewrite <- !app_assoc.
Qed.

Lemma starts_with_app (pat rest : jsstring) : starts_with pat (pat ++ rest) = true.
Proof.
  induction pat as [|c pat IH]; simpl; [reflexivity|].
  now rewrite N.eqb_refl.
Qed.

Lemma occurrences_substring (pat s : jsstring) :
  substring_of pat s -> 1 <= occurrences pat s.
Proof.
  intros (before & after & ->).
  induction before as [|c before IH].
  - simpl app. destruct (pat ++ after) eqn:E; simpl;
      rewrite <- E, starts_with_app; lia.
  - simpl in *. lia.
Qed.

Lemma substring_of_app_l (pat s more : jsstring) :
  substring_of pat s -> substring_of pat (s ++ more).
Proof.
  intros (b & a & ->). exists b, (a ++ more). now rewrite <- !app_assoc.
Qed.

Lemma substring_of_app_r (pat s more : jsstring) :
  substring_of pat s -> substring_of pat (more ++ s).
Proof.
  intros (b & a & ->). exists (more ++ b), a. now rewrite <- !app_assoc.
Qed.

Lemma substring_of_trans (a b c : jsstring) :
  substring_of a b -> substring_of b c -> substring_of a c.
Proof.
  intros (b1 & a1 & ->) (b2 & a2 & ->).
  exists (b2 ++ b1), (a1 ++ a2). now rewrite <- !app_assoc.
Qed.

End Builtins.

(** ** The formatter: [formatGitLog] *)

Section Formatter.

Variable col : Colors.
Variable date : Z -> jsstring.

(** The line of one commit in oneline mode, with the built-ins read off. *)
Lemma onelineEntry_eq (e : GitLogEntry) :
  onelineEntry col e
  = yellow col (firstn 7 (oid e)) ++ lit " "
      ++ white col (upToNewline (message (commit e))).
Proof. unfold onelineEntry. now rewrite slice_0_7, split_first. Qed.

(** The block of one commit in verbose mode, written out. *)
Lemma verboseEntry_eq (e : GitLogEntry) :
  verboseEntry col date e
  = yellow col (lit "commit " ++ oid e) ++ nl
      ++ (lit "Author: " ++ cyan col (name (author (commit e)))
            ++ lit " <" ++ cyan col (email (author (commit e))) ++ lit ">") ++ nl
      ++ (lit "Date:   " ++ green col (date (timestamp (author (commit e)) * 1000)%Z)) ++ nl
      ++ nl
      ++ (lit "    " ++ white col (trim (message (commit e)))) ++ nl.
Proof. unfold verboseEntry. rewrite !join_cons. reflexivity. Qed.

Lemma formatGitLog_single (e : GitLogEntry) (oneline : bool) :
  formatGitLog col date [e] oneline
  = if oneline then onelineEntry col e else verboseEntry col date e.
Proof. now destruct oneline. Qed.

Lemma formatGitLog_pieces (before after : list GitLogEntry) (e : GitLogEntry) (oneline : bool) :
  let entry := if oneline then onelineEntry col else verboseEntry col date in
  formatGitLog col date (before ++ e :: after) oneline
  = concat (map (fun x => entry x ++ nl) before) ++ entry e
      ++ concat (map (fun x => nl ++ entry x) after).
Proof.
  unfold formatGitLog.
  destruct oneline; cbv zeta; rewrite map_app; cbn [map];
    rewrite join_middle, !map_map; reflexivity.
Qed.

End Formatter.

Lemma plain_unstyled :
  Unstyled (yellow plain) /\ Unstyled (white plain) /\ Unstyled (cyan plain)
  /\ Unstyled (green plain) /\ Unstyled (red plain).
Proof. repeat split; intro s; reflexivity. Qed.

Lemma Unstyled_Wraps (style : jsstring -> jsstring) : Unstyled style -> Wraps style.
Proof. intros H s. exists [], []. rewrite H. now rewrite app_nil_r. Qed.

Lemma sgr_Wraps (code : string) : Wraps (sgr code).
Proof. intro s. unfold sgr. eexists _, _. reflexivity. Qed.

(** A 7-character prefix of an object identifier: 7 lowercase hexadecimal
    digits, none of them a line feed. *)
Lemma objectId_prefix (s : jsstring) :
  isObjectId s = true ->
  length (firstn 7 s) = 7
  /\ forallb isLowerHex (firstn 7 s) = true
  /\ ~ In LF (firstn 7 s).
Proof.
  unfold isObjectId. intro H. apply andb_true_iff in H as [Hlen Hhex].
  apply Nat.eqb_eq in Hlen.
  assert (Hpre : forallb isLowerHex (firstn 7 s) = true).
  { rewrite <- (firstn_skipn 7 s) in Hhex. rewrite forallb_app in Hhex.
    now apply andb_true_iff in Hhex as [Hhex _]. }
  split; [rewrite length_firstn; lia|]. split; [assumption|].
  intro Hin. rewrite forallb_forall in Hpre. apply Hpre in Hin. discriminate.
Qed.

(** C9: for the empty commit list and both values of [oneline],
    [formatGitLog] returns the empty string. *)
Theorem formatGitLog_empty (col : Colors) (date : Z -> jsstring) (oneline : bool) :
  formatGitLog col date [] oneline = lit "".
Proof. destruct oneline; reflexivity. Qed.

(** C8: in both modes the output for a list of commits is made of the outputs
    of its commits in the order of the list: wherever a commit stands in the
    list, its own output stands after those of the commits before it, each
    followed by a newline, and before those of the commits after it, each
    preceded by a newline. *)
Theorem formatGitLog_keeps_order
    (col : Colors) (date : Z -> jsstring) (oneline : bool)
    (before after : list GitLogEntry) (e : GitLogEntry) :
  formatGitLog col date (before ++ e :: after) oneline
  = concat (map (fun x => formatGitLog col date [x] oneline ++ nl) before)
      ++ formatGitLog col date [e] oneline
      ++ concat (map (fun x => nl ++ formatGitLog col date [x] oneline) after).
Proof.
  rewrite formatGitLog_pieces. cbv zeta.
  rewrite (map_ext (fun x => formatGitLog col date [x] oneline ++ nl)
             (fun x => (if oneline then onelineEntry col
                        else verboseEntry col date) x ++ nl))
    by (intro x; rewrite formatGitLog_single; now destruct oneline).
  rewrite (map_ext (fun x => nl ++ formatGitLog col date [x] oneline)
             (fun x => nl ++ (if oneline then onelineEntry col
                              else verboseEntry col date) x))
    by (intro x; rewrite formatGitLog_single; now destruct oneline).
  rewrite formatGitLog_single. now destruct oneline.
Qed.

(** *** Oneline mode *)

(** C1, as stated, fails: the first line of a message that uses CR LF line
    ends keeps its carriage return.  Colour is off here. *)
Lemma oneline_keeps_carriage_return :
  formatGitLog plain epochDate [crlfCommit] true = lit "abc1234 Fix typo" ++ [CR]
  /\ specOneline [crlfCommit] = lit "abc1234 Fix typo"
  /\ formatGitLog plain epochDate [crlfCommit] true <> specOneline [crlfCommit].
Proof. repeat split. discriminate. Qed.

(** C1 (amended): in oneline mode the output is the lines of the commits
    joined with one newline and no newline at the end; a commit's line is the
    first 7 characters of its identifier in the yellow style, one space, and
    in the white style the text of its message before the first newline, a
    carriage return before that newline included.  With styles that leave
    text unchanged and identifiers of 40 lowercase hexadecimal digits, the
    output of a non-empty list splits at its newlines into exactly one line
    per commit, in order, each beginning with the 7 hexadecimal digits that
    begin its commit's identifier. *)
Theorem oneline_lines (col : Colors) (date : Z -> jsstring) (commits : list GitLogEntry) :
  formatGitLog col date commits true
  = join nl
      (map (fun e => yellow col (firstn 7 (oid e)) ++ lit " "
                       ++ white col (upToNewline (message (commit e))))
         commits)
  /\ (Unstyled (yellow col) -> Unstyled (white col) ->
      forallb (fun e => isObjectId (oid e)) commits = true ->
      commits <> [] ->
      split LF (formatGitLog col date commits true)
      = map (fun e => firstn 7 (oid e) ++ lit " "
                        ++ upToNewline (message (commit e)))
          commits
      /\ Forall (fun e => length (firstn 7 (oid e)) = 7
                          /\ forallb isLowerHex (firstn 7 (oid e)) = true)
           commits).
Proof.
  assert (Heq : formatGitLog col date commits true
                = join nl
                    (map (fun e => yellow col (firstn 7 (oid e)) ++ lit " "
                                     ++ white col (upToNewline (message (commit e))))
                       commits)).
  { unfold formatGitLog. f_equal. apply map_ext. intro e. apply onelineEntry_eq. }
  split; [exact Heq|].
  intros Hy Hw Hids Hne. rewrite forallb_forall in Hids. split.
  - rewrite Heq.
    rewrite (map_ext _ (fun e => firstn 7 (oid e) ++ lit " "
                                   ++ upToNewline (message (commit e))))
      by (intro e; now rewrite Hy, Hw).
    unfold nl. apply split_join.
    + destruct commits; [congruence | discriminate].
    + apply Forall_forall. intros line Hin.
      apply in_map_iff in Hin as (e & <- & He).
      destruct (objectId_prefix (oid e) (Hids e He)) as (_ & _ & Hlf).
      intro H. apply in_app_or in H as [H | H]; [now apply Hlf|].
      apply in_app_or in H as [H | H].
      * simpl in H. destruct H as [H | []]. discriminate.
      * now apply upToNewline_no_LF in H.
  - apply Forall_forall. intros e He.
    destruct (objectId_prefix (oid e) (Hids e He)) as (Hlen & Hhex & _).
    now split.
Qed.

Lemma oneline_lines_witness :
  split LF (formatGitLog plain epochDate [revertCommit; crlfCommit] true)
  = [ lit "9f8e7d6 Revert Initial commit"; lit "abc1234 Fix typo" ++ [CR] ].
Proof.
  destruct (oneline_lines plain epochDate [revertCommit; crlfCommit]) as [_ H].
  destruct H as [H _].
  - intro s; reflexivity.
  - intro s; reflexivity.
  - reflexivity.
  - discriminate.
  - exact H.
Defined.

(** C3, as stated, fails: with colour on, the line carries the escape
    sequences of its two styles. *)
Lemma scenario_with_colour_on :
  isObjectId oidA = true
  /\ formatGitLog ansi epochDate [initialCommit] true
     = sgr "33" (lit "abc1234") ++ lit " " ++ sgr "37" (lit "Initial commit")
  /\ formatGitLog ansi epochDate [initialCommit] true <> lit "abc1234 Initial commit".
Proof. repeat split. discriminate. Qed.

(** C3 (amended): for a single commit whose message is "Initial commit\n"
    and whose identifier begins with abc1234, oneline mode returns abc1234 in
    the yellow style, a space, and Initial commit in the white style; with
    styles that leave text unchanged that is exactly the string
    "abc1234 Initial commit". *)
Theorem scenario_initial_commit
    (col : Colors) (date : Z -> jsstring) (a : Author) (rest : jsstring) :
  formatGitLog col date
    [mkEntry (mkCommit a (lit "Initial commit" ++ nl)) (lit "abc1234" ++ rest)] true
  = yellow col (lit "abc1234") ++ lit " " ++ white col (lit "Initial commit")
  /\ (Unstyled (yellow col) -> Unstyled (white col) ->
      formatGitLog col date
        [mkEntry (mkCommit a (lit "Initial commit" ++ nl)) (lit "abc1234" ++ rest)] true
      = lit "abc1234 Initial commit").
Proof.
  assert (Heq : formatGitLog col date
                  [mkEntry (mkCommit a (lit "Initial commit" ++ nl))
                     (lit "abc1234" ++ rest)] true
                = yellow col (lit "abc1234") ++ lit " "
                    ++ white col (lit "Initial commit")).
  { rewrite formatGitLog_single, onelineEntry_eq. reflexivity. }
  split; [exact Heq|].
  intros Hy Hw. rewrite Heq, Hy, Hw. reflexivity.
Qed.

Lemma scenario_initial_commit_witness :
  formatGitLog plain epochDate [initialCommit] true = lit "abc1234 Initial commit".
Proof.
  apply (proj2 (scenario_initial_commit plain epochDate ada
                  (lit "0123456789abcdef0123456789abcdef0"))).
  - intro s; reflexivity.
  - intro s; reflexivity.
Defined.

(** *** Verbose mode *)

Lemma trim_examples :
  trim (lit "  Initial commit" ++ nl) = lit "Initial commit"
  /\ trim (lit "subject" ++ nl ++ nl ++ lit "  body" ++ [CR; LF])
     = lit "subject" ++ nl ++ nl ++ lit "  body"
  /\ trim ([9; 160; 65279; 8195]%N) = lit "".
Proof. repeat split. Qed.


(** No way of cutting the verbose output into per-commit blocks makes it
    their plain concatenation: one commit's output is its block, and two
    commits give more than the two blocks. *)
Lemma verbose_is_no_concatenation :
  ~ exists block : GitLogEntry -> jsstring,
      forall commits,
        formatGitLog plain epochDate commits false = concat (map block commits).
Proof.
  intros (block & H).
  pose proof (H [initialCommit]) as H1.
  pose proof (H [initialCommit; initialCommit]) as H2.
  cbn [map concat] in H1, H2. rewrite app_nil_r in H1, H2.
  rewrite <- H1 in H2. apply (f_equal (@length N)) in H2.
  vm_compute in H2. discriminate.
Qed.




(** *** What the styles keep of their text *)

Section Styles.
Import AnsiColors.

Lemma isPlain_spec (c : N) :
  isPlain c = true -> c <> LF /\ c <> CR /\ c <> 27%N.
Proof.
  unfold isPlain. intro H.
  apply andb_true_iff in H as [H Hesc]. apply andb_true_iff in H as [Hlf Hcr].
  apply negb_true_iff, N.eqb_neq in Hesc, Hlf, Hcr. now repeat split.
Qed.

(** No occurrence of the closing sequence begins in a stretch of plain
    units: [reopen] passes the stretch on as it is. *)
Lemma reopen_plain_start (opening closing p rest : jsstring) :
  forallb isPlain p = true ->
  reopen opening (27%N :: closing) 0 (p ++ rest)
  = p ++ reopen opening (27%N :: closing) 0 rest.
Proof.
  induction p as [|c p IH]; intro Hp; [reflexivity|].
  cbn [forallb] in Hp. apply andb_true_iff in Hp as [Hc Hp].
  destruct (isPlain_spec c Hc) as (_ & _ & Hesc).
  cbn [app reopen starts_with].
  replace (N.eqb 27 c) with false by (symmetry; apply N.eqb_neq; congruence).
  cbn [andb]. now rewrite IH.
Qed.

(** A stretch without line feed and carriage return holds no line end:
    [breakLines] passes it on as it is. *)
Lemma breakLines_start (opening closing p rest : jsstring) :
  forallb (fun c => negb (N.eqb c LF) && negb (N.eqb c CR)) p = true ->
  breakLines opening closing [] (p ++ rest)
  = p ++ breakLines opening closing [] rest.
Proof.
  induction p as [|c p IH]; intro Hp; [reflexivity|].
  cbn [forallb] in Hp. apply andb_true_iff in Hp as [Hc Hp].
  apply andb_true_iff in Hc as [Hlf Hcr].
  apply negb_true_iff in Hlf, Hcr.
  cbn [app breakLines]. rewrite Hlf, Hcr. cbn [app]. now rewrite IH.
Qed.

Lemma isPlain_no_line_end (p : jsstring) :
  forallb isPlain p = true ->
  forallb (fun c => negb (N.eqb c LF) && negb (N.eqb c CR)) p = true.
Proof.
  intro H. rewrite forallb_forall in *. intros c Hc.
  specialize (H c Hc). unfold isPlain in H.
  now apply andb_true_iff in H as [H _].
Qed.

(** The style of the library keeps the beginning of its text, whatever
    follows it, for every colour whose opening sequence holds no line end. *)
Lemma libraryStyle_keeps_plain_start (opening closing : jsstring) :
  forallb (fun c => negb (N.eqb c LF) && negb (N.eqb c CR)) opening = true ->
  KeepsPlainStart (libraryStyle opening (27%N :: closing)).
Proof.
  intros Hopen p rest Hp. unfold libraryStyle.
  destruct (p ++ rest) as [|c s] eqn:E.
  - apply app_eq_nil in E as [-> _]. now exists [], [].
  - rewrite <- E, reopen_plain_start by assumption.
    destruct (existsb (N.eqb LF) (p ++ rest)).
    + rewrite <- app_assoc, app_assoc.
      rewrite breakLines_start.
      * eexists opening, _. now rewrite <- app_assoc.
      * rewrite forallb_app, Hopen. now apply isPlain_no_line_end.
    + eexists opening, _. now rewrite <- app_assoc.
Qed.

(** On a plain text that is not empty the style of the library is the
    bracketing [sgr]. *)
Lemma libraryStyle_plain (code : string) (s : jsstring) :
  forallb isPlain s = true -> s <> lit "" ->
  libraryStyle (sequence code) (sequence "39") s = sgr code s.
Proof.
  intros Hs Hne. unfold libraryStyle. destruct s as [|c s]; [now elim Hne|].
  replace (existsb (N.eqb LF) (c :: s)) with false.
  - change (sequence "39") with (27%N :: lit "[39m").
    rewrite <- (app_nil_r (c :: s)) at 1.
    rewrite reopen_plain_start by assumption. cbn [reopen].
    now rewrite app_nil_r.
  - symmetry. apply not_true_is_false. intro H.
    apply existsb_exists in H as (x & Hin & Hx). apply N.eqb_eq in Hx. subst x.
    rewrite forallb_forall in Hs. apply Hs, isPlain_spec in Hin.
    now destruct Hin as (Hlf & _).
Qed.

Lemma libraryColors_keep_plain_start :
  KeepsPlainStart (yellow libraryColors) /\ KeepsPlainStart (red libraryColors).
Proof. split; now apply libraryStyle_keeps_plain_start. Qed.

Lemma Unstyled_keeps_plain_start (style : jsstring -> jsstring) :
  Unstyled style -> KeepsPlainStart style.
Proof.
  intros H p rest _. rewrite H. exists [], rest. reflexivity.
Qed.

Lemma isObjectId_plain (s : jsstring) : isObjectId s = true -> forallb isPlain s = true.
Proof.
  unfold isObjectId. intro H. apply andb_true_iff in H as [_ H].
  rewrite forallb_forall in *. intros c Hc. specialize (H c Hc).
  unfold isLowerHex in H. unfold isPlain, LF, CR.
  apply orb_true_iff in H as [H | H]; apply andb_true_iff in H as [Hlo Hhi];
    apply N.leb_le in Hlo, Hhi;
    repeat (apply andb_true_iff; split); apply negb_true_iff, N.eqb_neq; lia.
Qed.

End Styles.

(** C7, as stated, fails: the message of a revert names the commit it undoes,
    so [commit <fullId>] of that commit stands twice in the output. *)
Lemma commit_line_twice :
  In initialCommit [revertCommit; initialCommit]
  /\ oid initialCommit = oidA
  /\ occurrences (lit "commit " ++ oidA)
       (formatGitLog plain epochDate [revertCommit; initialCommit] false) = 2.
Proof. repeat split. simpl. tauto. Qed.

(** C7 (amended): for all commit sequences and every commit of the sequence
    whose identifier holds no line feed, carriage return or escape character
    (as every identifier of 40 hexadecimal digits), the verbose output
    contains the substring [commit <fullId>] for that commit's full
    identifier, at least once, under a yellow style that keeps the plain
    beginning of its text: colour off, or the colour library with colour
    on. *)
Theorem verbose_names_every_commit
    (col : Colors) (date : Z -> jsstring) (commits : list GitLogEntry) (e : GitLogEntry) :
  AnsiColors.KeepsPlainStart (yellow col) ->
  forallb AnsiColors.isPlain (oid e) = true ->
  In e commits ->
  substring_of (lit "commit " ++ oid e) (formatGitLog col date commits false)
  /\ 1 <= occurrences (lit "commit " ++ oid e) (formatGitLog col date commits false).
Proof.
  intros Hy Hid Hin.
  assert (Hsub : substring_of (lit "commit " ++ oid e)
                   (formatGitLog col date commits false)).
  { apply in_split in Hin as (before & after & ->).
    rewrite formatGitLog_pieces. cbv zeta.
    apply substring_of_app_r, substring_of_app_l.
    rewrite verboseEntry_eq. apply substring_of_app_l.
    rewrite <- (app_nil_r (lit "commit " ++ oid e)) at 2.
    apply Hy. rewrite forallb_app, Hid. reflexivity. }
  split; [exact Hsub | now apply occurrences_substring].
Qed.

Lemma verbose_names_every_commit_witness :
  substring_of (lit "commit " ++ oidA)
    (formatGitLog AnsiColors.libraryColors epochDate
       [revertCommit; initialCommit] false).
Proof.
  apply (proj1 (@verbose_names_every_commit AnsiColors.libraryColors epochDate
                  [revertCommit; initialCommit] initialCommit
                  (proj1 libraryColors_keep_plain_start)
                  (isObjectId_plain oidA eq_refl)
                  (or_intror (or_introl eq_refl)))).
Defined.

(** ** The handler of [GET /api/:repo], the error handler and the CLI *)

Section Handlers.

Variable col : Colors.
Variable date : Z -> jsstring.
Variable path_join : jsstring -> jsstring -> jsstring.
Variable git_log : jsstring -> outcome (list GitLogEntry).
Variable opts : GitLogOptions.

Lemma is_defined_req_query (c : Context) (key : jsstring) :
  is_defined (req_query c key) = hasParam key (query c).
Proof.
  unfold req_query, hasParam.
  induction (query c) as [|kv q IH]; simpl; [reflexivity|].
  destruct (eqb (fst kv) key); [reflexivity | exact IH].
Qed.

Lemma hasParam_In (key : jsstring) (q : list (jsstring * jsstring)) :
  hasParam key q = true <-> In key (map fst q).
Proof.
  unfold hasParam. rewrite existsb_exists, in_map_iff. split.
  - intros (kv & Hin & Heq). apply eqb_eq in Heq. now exists kv.
  - intros (kv & Heq & Hin). exists kv. split; [assumption|]. now apply eqb_eq.
Qed.

(** The API handler never throws: whatever the commit source does, it
    answers. *)
Lemma apiRepo_returns (c : Context) (io : Console) :
  exists r, apiRepo col date path_join git_log opts c io = (io, Value r).
Proof.
  unfold apiRepo, try_catch, bind, call, ret.
  destruct (git_log _); eexists; reflexivity.
Qed.

End Handlers.

Section Part000.

Variable toISOString : Z -> outcome jsstring.

Lemma mapM_verboseEntry (iso : Z -> jsstring) (commits : list GitLogEntry) (io : Console) :
  Forall (fun e => toISOString (timestamp (author (commit e)) * 1000)%Z
                   = Returns (iso (timestamp (author (commit e)) * 1000)%Z))
    commits ->
  Part000.mapM (Part000.verboseEntry toISOString) commits io
  = (io, Value (map (verboseEntry plain iso) commits)).
Proof.
  induction 1 as [|e rest He _ IH]; [reflexivity|].
  cbn [Part000.mapM]. unfold bind at 1. unfold Part000.verboseEntry at 1.
  unfold bind at 1, call at 1. rewrite He. unfold ret at 1.
  unfold bind at 1. rewrite IH. reflexivity.
Qed.

Lemma Part000_onelineEntry (e : GitLogEntry) :
  Part000.onelineEntry e = onelineEntry plain e.
Proof. reflexivity. Qed.

End Part000.

(** C10: a request to [GET /api/:repo] whose commit source answers is
    rendered in oneline mode exactly when the query has a parameter named
    [oneline], whatever its value, and in verbose mode otherwise.  The same
    holds for [GET /:repo] of the revision without colour, whose verbose mode
    needs the dates of the commits to render. *)
Theorem oneline_iff_parameter_present
    (col : Colors) (date : Z -> jsstring)
    (path_join : jsstring -> jsstring -> jsstring)
    (git_log : jsstring -> outcome (list GitLogEntry))
    (opts : GitLogOptions) (c : Context) (commits : list GitLogEntry) (io : Console) :
  git_log (path_join (root opts) (param_repo c)) = Returns commits ->
  apiRepo col date path_join git_log opts c io
  = (io, Value (mkResponse 200
                  (Text (formatGitLog col date commits
                           (hasParam (lit "oneline") (query c))))))
  /\ (hasParam (lit "oneline") (query c) = true
      <-> In (lit "oneline") (map fst (query c)))
  /\ (forall (toISOString : Z -> outcome jsstring) (iso : Z -> jsstring),
         (hasParam (lit "oneline") (query c) = false ->
          Forall (fun e => toISOString (timestamp (author (commit e)) * 1000)%Z
                           = Returns (iso (timestamp (author (commit e)) * 1000)%Z))
            commits) ->
         Part000.getRepo toISOString path_join git_log opts c io
         = (io, Value (mkResponse 200
                         (Text (formatGitLog plain iso commits
                                  (hasParam (lit "oneline") (query c))))))).
Proof.
  intro Hlog. split; [|split].
  - unfold apiRepo, try_catch, bind, call, ret. rewrite Hlog.
    now rewrite is_defined_req_query.
  - apply hasParam_In.
  - intros toISOString iso Hdates.
    unfold Part000.getRepo. unfold bind at 1. unfold call at 1. rewrite Hlog.
    rewrite is_defined_req_query.
    destruct (hasParam (lit "oneline") (query c)).
    + reflexivity.
    + unfold bind at 1. unfold bind at 1.
      rewrite (mapM_verboseEntry toISOString iso) by now apply Hdates.
      reflexivity.
Qed.

(** [/api/demo?oneline=false] selects oneline mode. *)
Lemma oneline_iff_parameter_present_witness :
  apiRepo plain epochDate slashJoin demoHost demoOptions
    (mkContext (lit "demo") [(lit "oneline", lit "false")]) silent
  = (silent,
     Value (mkResponse 200
              (Text (lit "9f8e7d6 Revert Initial commit" ++ nl
                       ++ lit "abc1234 Initial commit")))).
Proof.
  apply (proj1 (oneline_iff_parameter_present plain epochDate slashJoin demoHost
                  demoOptions (mkContext (lit "demo") [(lit "oneline", lit "false")])
                  (commits := [revertCommit; initialCommit]) silent eq_refl)).
Defined.

(** C4, as stated, fails: with colour on, the red style is closed and opened
    again around the line end of a message of two lines, so the body of the
    404 answer does not hold the message as the commit source gave it. *)
Lemma multiline_message_is_broken_up :
  apiRepo AnsiColors.libraryColors epochDate slashJoin AnsiColors.twoLineFailure
    demoOptions (mkContext (lit "missing") []) silent
  = (silent,
     Value (mkResponse 404
              (Text (sgr "31" (lit "Error: ENOENT: no such file or directory")
                       ++ nl ++ sgr "31" (lit "while opening the repository")))))
  /\ ~ substring_of
         (lit "ENOENT: no such file or directory" ++ nl
            ++ lit "while opening the repository")
         (sgr "31" (lit "Error: ENOENT: no such file or directory")
            ++ nl ++ sgr "31" (lit "while opening the repository")).
Proof.
  split; [reflexivity|].
  intro H. apply occurrences_substring in H. vm_compute in H. lia.
Qed.

(** C4 (amended): when the commit source fails, [GET /api/:repo] answers with
    status 404 and the body [red("Error: " + message)], and the command line
    prints that text to standard error, prints nothing to standard output and
    ends the process with exit code 1; the message is the one of the thrown
    [Error].  Under a red style that keeps the plain beginning of its text
    (colour off, or the colour library with colour on) the body contains the
    word Error, and it contains the message when the message holds no line
    feed, carriage return or escape character. *)
Theorem failure_is_reported
    (col : Colors) (date : Z -> jsstring)
    (path_join : jsstring -> jsstring -> jsstring)
    (git_log : jsstring -> outcome (list GitLogEntry))
    (opts : GitLogOptions) (c : Context) (args : list jsstring)
    (e : thrown) (io : Console) :
  git_log (path_join (root opts) (param_repo c)) = Throws e ->
  args <> [] ->
  git_log (path_join (root opts) (nth 0 args [])) = Throws e ->
  apiRepo col date path_join git_log opts c io
  = (io, Value (mkResponse 404 (Text (red col (lit "Error: " ++ errorMessage e)))))
  /\ run col date path_join git_log opts args io
     = (mkConsole (stdout io)
          (stderr io ++ [[Str (red col (lit "Error: " ++ errorMessage e))]]),
        Exit 1)
  /\ (forall m, e = ErrorObject m -> errorMessage e = m)
  /\ (AnsiColors.KeepsPlainStart (red col) ->
      substring_of (lit "Error") (red col (lit "Error: " ++ errorMessage e))
      /\ (forallb AnsiColors.isPlain (errorMessage e) = true ->
          substring_of (errorMessage e) (red col (lit "Error: " ++ errorMessage e)))).
Proof.
  intros Hhttp Hargs Hcli. split; [|split; [|split]].
  - unfold apiRepo, try_catch, bind, call, ret. now rewrite Hhttp.
  - unfold run. destruct args as [|repo args']; [congruence|].
    cbn [length Nat.eqb when]. unfold bind at 1. unfold ret at 1.
    unfold try_catch, bind, call. cbn [nth] in Hcli |- *. rewrite Hcli.
    reflexivity.
  - now intros m ->.
  - intro Hred. split.
    + change (lit "Error: " ++ errorMessage e)
        with (lit "Error" ++ (lit ": " ++ errorMessage e)).
      now apply Hred.
    + intro Hplain.
      apply substring_of_trans with (lit "Error: " ++ errorMessage e).
      * exists (lit "Error: "), []. now rewrite app_nil_r.
      * rewrite <- (app_nil_r (lit "Error: " ++ errorMessage e)) at 2.
        apply Hred. rewrite forallb_app, Hplain. reflexivity.
Qed.

Lemma failure_is_reported_witness :
  apiRepo AnsiColors.libraryColors epochDate slashJoin demoHost demoOptions
    (mkContext (lit "missing") []) silent
  = (silent,
     Value (mkResponse 404 (Text (sgr "31" (lit "Error: Could not find HEAD.")))))
  /\ run AnsiColors.libraryColors epochDate slashJoin demoHost demoOptions
       [lit "missing"] silent
     = (mkConsole [] [[Str (sgr "31" (lit "Error: Could not find HEAD."))]], Exit 1)
  /\ substring_of (lit "Could not find HEAD.")
       (sgr "31" (lit "Error: Could not find HEAD.")).
Proof.
  destruct (failure_is_reported AnsiColors.libraryColors epochDate slashJoin
              demoHost demoOptions
              (mkContext (lit "missing") []) (args := [lit "missing"])
              (e := ErrorObject (lit "Could not find HEAD.")) silent)
    as (Hhttp & Hcli & _ & Hbody).
  - reflexivity.
  - discriminate.
  - reflexivity.
  - split; [exact Hhttp | split; [exact Hcli|]].
    apply (proj2 (Hbody (proj2 libraryColors_keep_plain_start))). reflexivity.
Defined.




(** C6: with an empty argument list the command line prints the usage
    message to standard error, prints nothing to standard output, and ends
    the process with exit code 1. *)
Theorem no_arguments_prints_usage
    (col : Colors) (date : Z -> jsstring)
    (path_join : jsstring -> jsstring -> jsstring)
    (git_log : jsstring -> outcome (list GitLogEntry))
    (opts : GitLogOptions) (io : Console) :
  run col date path_join git_log opts [] io
  = (mkConsole (stdout io) (stderr io ++ [[Str usage]]), Exit 1)
  /\ substring_of (lit "Usage") usage.
Proof.
  split; [reflexivity|].
  exists (lit "No repository specified. "), (lit ": mod.ts <repo-name> [--oneline]").
  reflexivity.
Qed.

(** * Further properties of the code *)

Import Pages Client Demo.

(** ** More on the string built-ins *)

Section MoreBuiltins.

(** Joining what [split] cut gives the string back. *)
Lemma join_split (sep : N) (s : jsstring) : join [sep] (split sep s) = s.
Proof.
  induction s as [|c s IH]; [reflexivity|].
  cbn [split]. destruct (N.eqb c sep) eqn:E.
  - apply N.eqb_eq in E. subst c.
    rewrite join_cons_ne by apply split_not_empty. now rewrite IH.
  - destruct (split sep s) as [|p [|q ps]] eqn:Es.
    + now destruct (split_not_empty sep s).
    + cbn [join] in *. now subst.
    + rewrite join_cons in *. rewrite <- IH. reflexivity.
Qed.

Lemma split_length (sep : N) (s : jsstring) :
  length (split sep s) = S (count_occ N.eq_dec s sep).
Proof.
  induction s as [|c s IH]; [reflexivity|].
  cbn [split count_occ]. destruct (N.eqb c sep) eqn:E.
  - apply N.eqb_eq in E. destruct (N.eq_dec c sep); [|contradiction].
    cbn [length]. now rewrite IH.
  - apply N.eqb_neq in E. destruct (N.eq_dec c sep); [contradiction|].
    destruct (split sep s); [discriminate | exact IH].
Qed.

(** A string that ends with the separator has an empty last piece. *)
Lemma split_ends_with_sep (sep : N) (s : jsstring) :
  split sep (s ++ [sep]) = split sep s ++ [[]].
Proof.
  induction s as [|c s IH]; cbn [app split].
  - now rewrite N.eqb_refl.
  - destruct (N.eqb c sep); rewrite IH; [reflexivity|].
    destruct (split sep s) eqn:E; [now destruct (split_not_empty sep s)|].
    reflexivity.
Qed.

Lemma trimStart_spec (s : jsstring) :
  exists pre, s = pre ++ trimStart s
              /\ forallb isWhiteSpace pre = true
              /\ (forall c rest, trimStart s = c :: rest -> isWhiteSpace c = false).
Proof.
  induction s as [|c s (pre & Hs & Hpre & Hhead)].
  - exists []. repeat split. discriminate.
  - cbn [trimStart]. destruct (isWhiteSpace c) eqn:E.
    + exists (c :: pre). cbn [app forallb]. rewrite E, Hpre.
      repeat split; [now rewrite <- Hs | exact Hhead].
    + exists []. repeat split. intros c' rest [= <- _]. exact E.
Qed.

(** [trim] removes white space from both ends and nothing else, and what
    is left neither begins nor ends with white space. *)
Lemma trim_spec (s : jsstring) :
  exists pre post,
    s = pre ++ trim s ++ post
    /\ forallb isWhiteSpace pre = true
    /\ forallb isWhiteSpace post = true
    /\ (forall c rest, trim s = c :: rest -> isWhiteSpace c = false)
    /\ (forall front c, trim s = front ++ [c] -> isWhiteSpace c = false).
Proof.
  destruct (trimStart_spec s) as (pre & Hs & Hpre & Hhead).
  destruct (trimStart_spec (rev (trimStart s))) as (tsop & Hr & Hpost & Hlast).
  unfold trim, trimEnd.
  assert (Hmid : trimStart s = rev (trimStart (rev (trimStart s))) ++ rev tsop).
  { rewrite <- rev_app_distr, <- Hr. now rewrite rev_involutive. }
  exists pre, (rev tsop). split; [|split; [|split; [|split]]].
  - now rewrite <- Hmid.
  - exact Hpre.
  - rewrite forallb_forall in *. intros c Hc. apply Hpost. now apply in_rev.
  - intros c rest Hc. rewrite Hc in Hmid. apply (Hhead c (rest ++ rev tsop)).
    exact Hmid.
  - intros front c Hc. apply (f_equal (@rev N)) in Hc.
    rewrite rev_involutive, rev_app_distr in Hc. cbn [rev app] in Hc.
    exact (Hlast c (rev front) Hc).
Qed.

End MoreBuiltins.

(** ** More on the formatter *)

(** X1: the oneline output shows nothing of a commit but the first 7
    characters of its identifier and the first line of its message: two
    lists that agree on these, commit by commit, give the same output,
    whatever their authors, dates, later message lines and longer
    identifiers are. *)
Theorem oneline_shows_only_id_and_summary
    (col : Colors) (date1 date2 : Z -> jsstring) (xs ys : list GitLogEntry) :
  Forall2 (fun a b => firstn 7 (oid a) = firstn 7 (oid b)
                      /\ upToNewline (message (commit a))
                         = upToNewline (message (commit b)))
    xs ys ->
  formatGitLog col date1 xs true = formatGitLog col date2 ys true.
Proof.
  intro H. unfold formatGitLog. f_equal.
  induction H as [|a b xs ys [Hid Hmsg] _ IH]; [reflexivity|].
  cbn [map]. rewrite IH, !onelineEntry_eq, Hid, Hmsg. reflexivity.
Qed.

Lemma oneline_shows_only_id_and_summary_witness :
  formatGitLog plain epochDate [initialCommit] true
  = formatGitLog plain (fun _ => lit "")
      [mkEntry
         (mkCommit (mkAuthor (lit "Bob") (lit "bob@example.org") 86400)
            (lit "Initial commit" ++ nl ++ nl ++ lit "With a body." ++ nl))
         (lit "abc1234ffffffffffffffffffffffffffffffffff")]
      true.
Proof.
  apply oneline_shows_only_id_and_summary.
  constructor; [split; reflexivity | constructor].
Defined.

(** X2: the message line of a verbose block is 4 spaces and, in the white
    style, the message without the white space at its two ends; nothing else
    of the message is removed, and what is shown neither begins nor ends with
    white space (it is empty for a message of white space only). *)
Theorem verbose_message_is_trimmed_only
    (col : Colors) (date : Z -> jsstring) (e : GitLogEntry) :
  exists header pre shownText post,
    verboseEntry col date e
    = header ++ lit "    " ++ white col shownText ++ nl
    /\ message (commit e) = pre ++ shownText ++ post
    /\ forallb isWhiteSpace pre = true
    /\ forallb isWhiteSpace post = true
    /\ (forall c rest, shownText = c :: rest -> isWhiteSpace c = false)
    /\ (forall front c, shownText = front ++ [c] -> isWhiteSpace c = false).
Proof.
  destruct (trim_spec (message (commit e)))
    as (pre & post & Hm & Hpre & Hpost & Hfirst & Hlast).
  exists (yellow col (lit "commit " ++ oid e) ++ nl
            ++ (lit "Author: " ++ cyan col (name (author (commit e)))
                  ++ lit " <" ++ cyan col (email (author (commit e))) ++ lit ">") ++ nl
            ++ (lit "Date:   "
                  ++ green col (date (timestamp (author (commit e)) * 1000)%Z)) ++ nl
            ++ nl),
    pre, (trim (message (commit e))), post.
  split; [|now repeat split].
  rewrite verboseEntry_eq. now rewrite <- !app_assoc.
Qed.

(** ** More on the API route and the command line *)

(** X3: the API route never reaches the error handler: served through
    [fetch] it answers as the handler alone does, with a text body and status
    200 or 404, and nothing is written to the console. *)
Theorem api_route_never_reaches_onError
    (col : Colors) (date : Z -> jsstring)
    (path_join : jsstring -> jsstring -> jsstring)
    (git_log : jsstring -> outcome (list GitLogEntry))
    (opts : GitLogOptions) (c : Context) (io : Console) :
  fetch (apiRepo col date path_join git_log opts) c io
  = apiRepo col date path_join git_log opts c io
  /\ exists st b,
       apiRepo col date path_join git_log opts c io
       = (io, Value (mkResponse st (Text b)))
       /\ (st = 200 \/ st = 404)%Z.
Proof.
  unfold fetch, apiRepo, try_catch, bind, call, ret.
  destruct (git_log _); (split; [reflexivity|]); eexists _, _;
    (split; [reflexivity|]); [now left | now right].
Qed.

(** X4: every run of the command line makes exactly one console call and
    lets no thrown value out: either one [console.log] and a normal end, or
    one [console.error] and [process.exit(1)]. *)
Theorem run_prints_one_message
    (col : Colors) (date : Z -> jsstring)
    (path_join : jsstring -> jsstring -> jsstring)
    (git_log : jsstring -> outcome (list GitLogEntry))
    (opts : GitLogOptions) (args : list jsstring) (io : Console) :
  exists msg,
    run col date path_join git_log opts args io
    = (mkConsole (stdout io ++ [[Str msg]]) (stderr io), Value tt)
    \/ run col date path_join git_log opts args io
       = (mkConsole (stdout io) (stderr io ++ [[Str msg]]), Exit 1).
Proof.
  destruct args as [|repo rest].
  - exists usage. now right.
  - unfold run. cbn [length Nat.eqb when nth]. unfold bind at 1. unfold ret at 1.
    unfold try_catch, bind, call.
    destruct (git_log (path_join (root opts) repo)) as [commits | e].
    + eexists. left. reflexivity.
    + eexists. right. reflexivity.
Qed.

(** X5: the command line and the API give the same text.  For the same
    repository name, with [--oneline] among the arguments exactly when the
    request has an [oneline] parameter, what the command line prints to
    standard output is the body of the API's 200 answer, and what it prints to
    standard error before exit code 1 is the body of the API's 404 answer. *)
Theorem cli_agrees_with_api
    (col : Colors) (date : Z -> jsstring)
    (path_join : jsstring -> jsstring -> jsstring)
    (git_log : jsstring -> outcome (list GitLogEntry))
    (opts : GitLogOptions) (c : Context) (rest : list jsstring) (io : Console) :
  hasParam (lit "oneline") (query c)
  = includes (param_repo c :: rest) (lit "--oneline") ->
  exists st b,
    apiRepo col date path_join git_log opts c io
    = (io, Value (mkResponse st (Text b)))
    /\ ((st = 200%Z
         /\ run col date path_join git_log opts (param_repo c :: rest) io
            = (mkConsole (stdout io ++ [[Str b]]) (stderr io), Value tt))
        \/ (st = 404%Z
            /\ run col date path_join git_log opts (param_repo c :: rest) io
               = (mkConsole (stdout io) (stderr io ++ [[Str b]]), Exit 1))).
Proof.
  intro Hmode.
  unfold apiRepo, run. cbn [length Nat.eqb when nth].
  unfold bind at 2. unfold ret at 2.
  unfold try_catch, bind, call, ret.
  rewrite is_defined_req_query, Hmode.
  destruct (git_log (path_join (root opts) (param_repo c))) as [commits | e].
  - eexists _, _. split; [reflexivity|]. left. split; reflexivity.
  - eexists _, _. split; [reflexivity|]. right. split; reflexivity.
Qed.

Lemma cli_agrees_with_api_witness :
  exists b,
    apiRepo plain epochDate slashJoin demoHost demoOptions
      (mkContext (lit "demo") [(lit "oneline", lit "")]) silent
    = (silent, Value (mkResponse 200 (Text b)))
    /\ run plain epochDate slashJoin demoHost demoOptions
         [lit "demo"; lit "--oneline"] silent
       = (mkConsole [[Str b]] [], Value tt).
Proof.
  destruct (@cli_agrees_with_api plain epochDate slashJoin demoHost demoOptions
              (mkContext (lit "demo") [(lit "oneline", lit "")])
              [lit "--oneline"] silent eq_refl)
    as (st & b & Hapi & [[Hst Hrun] | [Hst Hrun]]).
  - exists b. subst st. split; [exact Hapi | exact Hrun].
  - exfalso. subst st. vm_compute in Hapi. discriminate.
Defined.

(** ** The earlier revision: what makes its handler throw *)

Lemma mapM_verboseEntry_throws
    (toISOString : Z -> outcome jsstring) (iso : Z -> jsstring)
    (good rest : list GitLogEntry) (bad : GitLogEntry) (e : thrown) (io : Console) :
  Forall (fun x => toISOString (timestamp (author (commit x)) * 1000)%Z
                   = Returns (iso (timestamp (author (commit x)) * 1000)%Z))
    good ->
  toISOString (timestamp (author (commit bad)) * 1000)%Z = Throws e ->
  Part000.mapM (Part000.verboseEntry toISOString) (good ++ bad :: rest) io
  = (io, Raise e).
Proof.
  intros Hgood Hbad. induction Hgood as [|x good Hx _ IH].
  - cbn [app Part000.mapM]. unfold bind at 1. unfold Part000.verboseEntry at 1.
    unfold bind at 1, call at 1. now rewrite Hbad.
  - cbn [app Part000.mapM]. unfold bind at 1. unfold Part000.verboseEntry at 1.
    unfold bind at 1, call at 1. rewrite Hx. unfold ret at 1.
    unfold bind at 1. now rewrite IH.
Qed.

(** X6: the handler of the earlier revision catches nothing.  A commit
    source that throws makes the handler throw the same value; in verbose
    mode the first commit whose date does not render makes it throw what the
    date threw, however many commits rendered before it; in oneline mode no
    date is rendered and the handler answers with status 200. *)
Theorem earlier_revision_failures
    (toISOString : Z -> outcome jsstring)
    (path_join : jsstring -> jsstring -> jsstring)
    (git_log : jsstring -> outcome (list GitLogEntry))
    (opts : GitLogOptions) (c : Context) (io : Console) :
  (forall e,
      git_log (path_join (root opts) (param_repo c)) = Throws e ->
      Part000.getRepo toISOString path_join git_log opts c io = (io, Raise e))
  /\ (forall commits,
         git_log (path_join (root opts) (param_repo c)) = Returns commits ->
         hasParam (lit "oneline") (query c) = true ->
         Part000.getRepo toISOString path_join git_log opts c io
         = (io, Value (mkResponse 200
                         (Text (join nl (map Part000.onelineEntry commits))))))
  /\ (forall (iso : Z -> jsstring) good bad rest e,
         git_log (path_join (root opts) (param_repo c))
         = Returns (good ++ bad :: rest) ->
         hasParam (lit "oneline") (query c) = false ->
         Forall (fun x => toISOString (timestamp (author (commit x)) * 1000)%Z
                          = Returns (iso (timestamp (author (commit x)) * 1000)%Z))
           good ->
         toISOString (timestamp (author (commit bad)) * 1000)%Z = Throws e ->
         Part000.getRepo toISOString path_join git_log opts c io = (io, Raise e)).
Proof.
  split; [|split].
  - intros e Hlog. unfold Part000.getRepo. unfold bind at 1. unfold call at 1.
    now rewrite Hlog.
  - intros commits Hlog Hmode. unfold Part000.getRepo.
    unfold bind at 1. unfold call at 1. rewrite Hlog.
    rewrite is_defined_req_query, Hmode. reflexivity.
  - intros iso good bad rest e Hlog Hmode Hgood Hbad. unfold Part000.getRepo.
    unfold bind at 1. unfold call at 1. rewrite Hlog.
    rewrite is_defined_req_query, Hmode.
    unfold bind at 1. unfold bind at 1.
    now rewrite (@mapM_verboseEntry_throws toISOString iso good rest bad e io Hgood Hbad).
Qed.

Lemma earlier_revision_failures_witness :
  Part000.getRepo demoISO slashJoin
    (fun _ => Returns [initialCommit; farCommit; revertCommit])
    demoOptions (mkContext (lit "demo") []) silent
  = (silent, Raise (ErrorObject (lit "Invalid time value"))).
Proof.
  destruct (earlier_revision_failures demoISO slashJoin
              (fun _ => Returns [initialCommit; farCommit; revertCommit])
              demoOptions (mkContext (lit "demo") []) silent)
    as (_ & _ & H).
  apply (H (fun _ => lit "1970-01-01T00:00:00.000Z")
           [initialCommit] farCommit [revertCommit]
           (ErrorObject (lit "Invalid time value"))).
  - reflexivity.
  - reflexivity.
  - constructor; [reflexivity | constructor].
  - reflexivity.
Defined.

(** ** The HTML shell *)

Lemma pageHead_ends_with_title :
  exists before, pageHead = before ++ lit "<title>".
Proof. exists (firstn (length pageHead - 7) pageHead). reflexivity. Qed.

Lemma pageMiddle_begins_and_ends :
  exists between,
    pageMiddle = lit "</title>" ++ between ++ lit "let currentRepo = '".
Proof.
  exists (firstn (length pageMiddle - 8 - 19) (skipn 8 pageMiddle)).
  vm_compute. reflexivity.
Qed.

Lemma pageTail_begins_with_quote :
  exists after, pageTail = lit "';" ++ after.
Proof. exists (skipn 2 pageTail). reflexivity. Qed.

Lemma app_same_length_inv (a b x y : jsstring) :
  length a = length b -> a ++ x = b ++ y -> a = b.
Proof.
  revert b. induction a as [|c a IH]; intros [|d b] Hlen H;
    try discriminate; [reflexivity|].
  injection H as -> H. f_equal. apply (IH b); [now injection Hlen | exact H].
Qed.

(** X7: the page of [GET /:repo] holds the repository name as it came,
    with no character escaped or encoded, in its title and in the string
    literal of its script, whatever characters the name is made of. *)
Theorem page_holds_repo_verbatim (c : Context) :
  param_repo c <> lit "" ->
  html_status (getRepo c) = 200%Z
  /\ substring_of (lit "<title>Git Log - " ++ param_repo c ++ lit "</title>")
       (html_body (getRepo c))
  /\ substring_of (lit "let currentRepo = '" ++ param_repo c ++ lit "';")
       (html_body (getRepo c)).
Proof.
  intro Hrepo. unfold getRepo, html, getTerminalHTML. cbn [html_status html_body].
  destruct (param_repo c) as [|ch repo] eqn:E; [now elim Hrepo|].
  cbn [truthy shown]. split; [reflexivity|].
  destruct pageHead_ends_with_title as (h & ->).
  destruct pageMiddle_begins_and_ends as (m & ->).
  destruct pageTail_begins_with_quote as (t & ->).
  split.
  - exists h, (m ++ lit "let currentRepo = '" ++ (ch :: repo) ++ lit "';" ++ t).
    change (lit "<title>Git Log - ") with (lit "<title>" ++ lit "Git Log - ").
    now rewrite <- !app_assoc.
  - exists (h ++ lit "<title>" ++ lit "Git Log - " ++ (ch :: repo)
              ++ lit "</title>" ++ m), t.
    now rewrite <- !app_assoc.
Qed.

Lemma page_holds_repo_verbatim_witness :
  substring_of (lit "let currentRepo = '" ++ lit "x';alert(1);'" ++ lit "';")
    (html_body (getRepo (mkContext (lit "x';alert(1);'") []))).
Proof.
  apply (proj2 (proj2 (page_holds_repo_verbatim
                         (mkContext (lit "x';alert(1);'") []) ltac:(discriminate)))).
Defined.

(** X8: a missing repository name and an empty one give the same page, the
    one [GET /] serves with status 200: its title is [Git Log] and the string
    literal of its script is empty. *)
Theorem page_without_repo (c : Context) :
  getTerminalHTML None = getTerminalHTML (Some (lit ""))
  /\ getRoot c = mkHtml 200 (getTerminalHTML None)
  /\ substring_of (lit "<title>Git Log</title>") (getTerminalHTML None)
  /\ substring_of (lit "let currentRepo = '';") (getTerminalHTML None).
Proof.
  split; [reflexivity|]. split; [reflexivity|].
  unfold getTerminalHTML. cbn [truthy].
  destruct pageHead_ends_with_title as (h & ->).
  destruct pageMiddle_begins_and_ends as (m & ->).
  destruct pageTail_begins_with_quote as (t & ->).
  split.
  - exists h, (m ++ lit "let currentRepo = '" ++ lit "" ++ lit "';" ++ t).
    change (lit "<title>Git Log</title>")
      with (lit "<title>" ++ lit "Git Log" ++ lit "</title>").
    now rewrite <- !app_assoc.
  - exists (h ++ lit "<title>" ++ lit "Git Log" ++ lit "</title>" ++ m), t.
    change (lit "let currentRepo = '';")
      with (lit "let currentRepo = '" ++ lit "" ++ lit "';").
    now rewrite <- !app_assoc.
Qed.

Lemma getTerminalHTML_inj (r1 r2 : jsstring) :
  getTerminalHTML (Some r1) = getTerminalHTML (Some r2) -> r1 = r2.
Proof.
  unfold getTerminalHTML.
  generalize pageHead as h, pageMiddle as m, pageTail as t. intros h m t H.
  apply app_inv_head in H.
  destruct r1 as [|c1 r1], r2 as [|c2 r2]; cbn [truthy shown] in H.
  - reflexivity.
  - apply (f_equal (@length N)) in H. exfalso.
    rewrite !length_app in H. cbn [length lit] in H. simpl in H. lia.
  - apply (f_equal (@length N)) in H. exfalso.
    rewrite !length_app in H. cbn [length lit] in H. simpl in H. lia.
  - assert (Hlen : length (c1 :: r1) = length (c2 :: r2)).
    { apply (f_equal (@length N)) in H. rewrite !length_app in H.
      simpl in H. simpl. lia. }
    rewrite <- !app_assoc in H. apply app_inv_head in H.
    exact (app_same_length_inv _ _ _ _ Hlen H).
Qed.

(** X9: different repository names never get the same page, the empty
    name included. *)
Theorem pages_differ_by_repo (r1 r2 : jsstring) :
  r1 <> r2 -> getTerminalHTML (Some r1) <> getTerminalHTML (Some r2).
Proof. intros Hne H. apply Hne. now apply getTerminalHTML_inj. Qed.

Lemma pages_differ_by_repo_witness :
  html_body (getRepo (mkContext (lit "demo") []))
  <> html_body (getRepo (mkContext (lit "demo2") [])).
Proof.
  apply (@pages_differ_by_repo (lit "demo") (lit "demo2")). discriminate.
Defined.

(** ** The script of the page *)

Lemma requests_writelns (lines : list jsstring) : requests (map Writeln lines) = [].
Proof. induction lines; [reflexivity | exact IHlines]. Qed.

(** What the API answers for a repository whose commits are read, as the
    page receives it. *)
Lemma api_answer_delivered
    (col : Colors) (date : Z -> jsstring)
    (path_join : jsstring -> jsstring -> jsstring)
    (git_log : jsstring -> outcome (list GitLogEntry))
    (opts : GitLogOptions) (net : jsstring -> fetched) (url : jsstring)
    (c : Context) (commits : list GitLogEntry) :
  git_log (path_join (root opts) (param_repo c)) = Returns commits ->
  delivers net url (apiRepo col date path_join git_log opts c silent) ->
  net url = Answer true
              (formatGitLog col date commits (hasParam (lit "oneline") (query c))).
Proof.
  intros Hlog Hnet.
  apply (Hnet silent 200%Z). unfold apiRepo, try_catch, bind, call, ret.
  rewrite Hlog. now rewrite is_defined_req_query.
Qed.

Lemma oneline_output_splits
    (col : Colors) (date : Z -> jsstring) (commits : list GitLogEntry) :
  Unstyled (yellow col) -> Unstyled (white col) ->
  forallb (fun e => isObjectId (oid e)) commits = true ->
  commits <> [] ->
  split LF (formatGitLog col date commits true)
  = map (fun e => firstn 7 (oid e) ++ lit " " ++ upToNewline (message (commit e)))
      commits.
Proof.
  intros Hy Hw Hids Hne. rewrite forallb_forall in Hids.
  unfold formatGitLog.
  rewrite (map_ext _ (fun e => firstn 7 (oid e) ++ lit " "
                                 ++ upToNewline (message (commit e))))
    by (intro e; now rewrite onelineEntry_eq, Hy, Hw).
  unfold nl. apply split_join.
  - destruct commits; [congruence | discriminate].
  - apply Forall_forall. intros line Hin.
    apply in_map_iff in Hin as (e & <- & He).
    destruct (objectId_prefix (oid e) (Hids e He)) as (_ & _ & Hlf).
    intro H. apply in_app_or in H as [H | H]; [now apply Hlf|].
    apply in_app_or in H as [H | H].
    + simpl in H. destruct H as [H | []]. discriminate.
    + now apply upToNewline_no_LF in H.
Qed.

Lemma verbose_output_ends_with_newline
    (col : Colors) (date : Z -> jsstring) (commits : list GitLogEntry) :
  commits <> [] ->
  exists before, formatGitLog col date commits false = before ++ nl.
Proof.
  intro Hne. destruct (exists_last Hne) as (front & e & ->).
  rewrite formatGitLog_pieces. cbv zeta. cbn [map concat].
  rewrite app_nil_r, verboseEntry_eq.
  eexists. rewrite !app_assoc. reflexivity.
Qed.

(** X10: for an answer that is [ok], the script clears the terminal and
    writes the text of the answer line by line: the lines it writes, joined
    with newlines, are the text, nothing lost and nothing added, and there is
    one line more than the text has newlines. *)
Theorem loadRepo_writes_the_lines
    (isOneline : bool) (net : jsstring -> fetched) (repo text : jsstring) :
  repo <> lit "" ->
  net (lit "/api/" ++ repo ++ (if isOneline then lit "?oneline" else lit ""))
  = Answer true text ->
  exists lines,
    loadRepo isOneline net repo
    = [ Clear;
        Writeln ([ESC] ++ lit "[36mLoading git log..." ++ [ESC] ++ lit "[0m");
        Fetch (lit "/api/" ++ repo ++ (if isOneline then lit "?oneline" else lit ""));
        Clear ]
      ++ map Writeln lines
    /\ join nl lines = text
    /\ length lines = S (count_occ N.eq_dec text LF).
Proof.
  intros Hrepo Hnet. exists (split LF text).
  split; [|split; [apply join_split | apply split_length]].
  unfold loadRepo. destruct repo as [|c repo]; [now elim Hrepo|].
  rewrite Hnet. reflexivity.
Qed.

Lemma loadRepo_writes_the_lines_witness :
  exists lines,
    loadRepo true demoNet (lit "demo")
    = [ Clear;
        Writeln ([ESC] ++ lit "[36mLoading git log..." ++ [ESC] ++ lit "[0m");
        Fetch (lit "/api/demo?oneline");
        Clear ]
      ++ map Writeln lines
    /\ length lines = 2.
Proof.
  destruct (@loadRepo_writes_the_lines true demoNet (lit "demo")
              (formatGitLog plain epochDate [revertCommit; initialCommit] true)
              ltac:(discriminate) eq_refl)
    as (lines & Htrace & _ & Hlen).
  exists lines. split; [exact Htrace | exact Hlen].
Defined.

(** X11: server and page together, in oneline mode.  When the network hands
    the page what the API handler answers for the request, the styles leave
    text unchanged and the identifiers are 40 lowercase hexadecimal digits,
    the page writes exactly one terminal line per commit, in the order of the
    commit source: the 7-character prefix, a space and the first line of the
    message. *)
Theorem page_shows_one_line_per_commit
    (col : Colors) (date : Z -> jsstring)
    (path_join : jsstring -> jsstring -> jsstring)
    (git_log : jsstring -> outcome (list GitLogEntry))
    (opts : GitLogOptions) (net : jsstring -> fetched)
    (c : Context) (commits : list GitLogEntry) :
  param_repo c <> lit "" ->
  hasParam (lit "oneline") (query c) = true ->
  git_log (path_join (root opts) (param_repo c)) = Returns commits ->
  delivers net (lit "/api/" ++ param_repo c ++ lit "?oneline")
    (apiRepo col date path_join git_log opts c silent) ->
  Unstyled (yellow col) -> Unstyled (white col) ->
  forallb (fun e => isObjectId (oid e)) commits = true ->
  commits <> [] ->
  start true net (param_repo c)
  = [ Clear;
      Writeln ([ESC] ++ lit "[36mLoading git log..." ++ [ESC] ++ lit "[0m");
      Fetch (lit "/api/" ++ param_repo c ++ lit "?oneline");
      Clear ]
    ++ map (fun e => Writeln (firstn 7 (oid e) ++ lit " "
                                ++ upToNewline (message (commit e))))
         commits.
Proof.
  intros Hrepo Hmode Hlog Hnet Hy Hw Hids Hne.
  pose proof (@api_answer_delivered col date path_join git_log opts net _ c
                commits Hlog Hnet) as Hanswer.
  rewrite Hmode in Hanswer.
  unfold start, loadRepo. destruct (param_repo c) as [|ch repo]; [now elim Hrepo|].
  rewrite Hanswer. rewrite oneline_output_splits by assumption.
  now rewrite map_map.
Qed.

Lemma page_shows_one_line_per_commit_witness :
  start true demoNet (lit "demo")
  = [ Clear;
      Writeln ([ESC] ++ lit "[36mLoading git log..." ++ [ESC] ++ lit "[0m");
      Fetch (lit "/api/demo?oneline");
      Clear;
      Writeln (lit "9f8e7d6 Revert Initial commit");
      Writeln (lit "abc1234 Initial commit") ].
Proof.
  apply (@page_shows_one_line_per_commit plain epochDate slashJoin demoHost
           demoOptions demoNet (mkContext (lit "demo") [(lit "oneline", lit "")])
           [revertCommit; initialCommit]).
  - discriminate.
  - reflexivity.
  - reflexivity.
  - intros io st b H. vm_compute in H. injection H as <- <- <-. reflexivity.
  - intro s; reflexivity.
  - intro s; reflexivity.
  - reflexivity.
  - discriminate.
Defined.

(** X12: server and page together, when the commit source fails.  The API
    answers 404, which is not [ok], so the page writes the body as one
    terminal line, not split at newlines: [Error: <message>] in the red style
    of the server. *)
Theorem page_shows_server_error
    (col : Colors) (date : Z -> jsstring)
    (path_join : jsstring -> jsstring -> jsstring)
    (git_log : jsstring -> outcome (list GitLogEntry))
    (opts : GitLogOptions) (isOneline : bool) (net : jsstring -> fetched)
    (c : Context) (e : thrown) :
  param_repo c <> lit "" ->
  git_log (path_join (root opts) (param_repo c)) = Throws e ->
  delivers net
    (lit "/api/" ++ param_repo c ++ (if isOneline then lit "?oneline" else lit ""))
    (apiRepo col date path_join git_log opts c silent) ->
  start isOneline net (param_repo c)
  = [ Clear;
      Writeln ([ESC] ++ lit "[36mLoading git log..." ++ [ESC] ++ lit "[0m");
      Fetch (lit "/api/" ++ param_repo c
               ++ (if isOneline then lit "?oneline" else lit ""));
      Clear;
      Writeln (red col (lit "Error: " ++ errorMessage e)) ].
Proof.
  intros Hrepo Hlog Hnet.
  assert (Hanswer :
            net (lit "/api/" ++ param_repo c
                   ++ (if isOneline then lit "?oneline" else lit ""))
            = Answer false (red col (lit "Error: " ++ errorMessage e))).
  { apply (Hnet silent 404%Z). unfold apiRepo, try_catch, bind, call, ret.
    now rewrite Hlog. }
  unfold start, loadRepo. destruct (param_repo c) as [|ch repo]; [now elim Hrepo|].
  now rewrite Hanswer.
Qed.

Lemma page_shows_server_error_witness :
  start false demoNet (lit "missing")
  = [ Clear;
      Writeln ([ESC] ++ lit "[36mLoading git log..." ++ [ESC] ++ lit "[0m");
      Fetch (lit "/api/missing");
      Clear;
      Writeln (lit "Error: Could not find HEAD.") ].
Proof.
  apply (@page_shows_server_error plain epochDate slashJoin demoHost demoOptions
           false demoNet (mkContext (lit "missing") [])
           (ErrorObject (lit "Could not find HEAD."))).
  - discriminate.
  - reflexivity.
  - intros io st b H. vm_compute in H. injection H as <- <- <-. reflexivity.
Defined.

(** X13: when the page loads, the script makes no request for an empty
    repository name and exactly one otherwise, whatever the network answers:
    to [/api/] followed by the name as it is, not encoded, and by [?oneline]
    when the address of the page has an [oneline] parameter. *)
Theorem start_makes_at_most_one_request
    (isOneline : bool) (net : jsstring -> fetched) (currentRepo : jsstring) :
  requests (start isOneline net currentRepo)
  = match currentRepo with
    | [] => []
    | _ :: _ =>
        [lit "/api/" ++ currentRepo ++ (if isOneline then lit "?oneline" else lit "")]
    end.
Proof.
  destruct currentRepo as [|c repo]; [reflexivity|].
  unfold start, loadRepo. cbn [app requests]. f_equal.
  destruct (net _) as [[|] text | message]; cbn [requests];
    [apply requests_writelns | reflexivity | reflexivity].
Qed.

(** X14: server and page together, in verbose mode.  The verbose output of
    a non-empty log ends with a newline, so the last line the page writes to
    the terminal is an empty one. *)
Theorem verbose_page_ends_with_blank_line
    (col : Colors) (date : Z -> jsstring)
    (path_join : jsstring -> jsstring -> jsstring)
    (git_log : jsstring -> outcome (list GitLogEntry))
    (opts : GitLogOptions) (net : jsstring -> fetched)
    (c : Context) (commits : list GitLogEntry) :
  param_repo c <> lit "" ->
  hasParam (lit "oneline") (query c) = false ->
  git_log (path_join (root opts) (param_repo c)) = Returns commits ->
  commits <> [] ->
  delivers net (lit "/api/" ++ param_repo c)
    (apiRepo col date path_join git_log opts c silent) ->
  exists before, start false net (param_repo c) = before ++ [Writeln (lit "")].
Proof.
  intros Hrepo Hmode Hlog Hne Hnet.
  pose proof (@api_answer_delivered col date path_join git_log opts net _ c
                commits Hlog Hnet) as Hanswer.
  rewrite Hmode in Hanswer.
  destruct (verbose_output_ends_with_newline col date Hne) as (text & Htext).
  rewrite Htext in Hanswer.
  unfold start, loadRepo. destruct (param_repo c) as [|ch repo]; [now elim Hrepo|].
  change (lit "") with (@nil N). rewrite app_nil_r, Hanswer.
  unfold nl. rewrite split_ends_with_sep, map_app. cbn [map].
  eexists. rewrite app_comm_cons, !app_assoc. reflexivity.
Qed.

Lemma verbose_page_ends_with_blank_line_witness :
  exists before, start false demoNet (lit "demo") = before ++ [Writeln (lit "")].
Proof.
  apply (@verbose_page_ends_with_blank_line plain epochDate slashJoin demoHost
           demoOptions demoNet (mkContext (lit "demo") [])
           [revertCommit; initialCommit]).
  - discriminate.
  - reflexivity.
  - reflexivity.
  - discriminate.
  - intros io st b H. vm_compute in H. injection H as <- <- <-. reflexivity.
Defined.
